(** * dcargs: argument definitions derived from dataclass fields

    A shallow embedding of [dcargs/_arguments.py]: the [ArgumentDefinition]
    record, the five transformations applied by [make_from_field], and
    [add_argument]/[get_flag], together with the Python builtins they call
    and the collaborators they hand their results to. *)

From Stdlib Require Import ZArith String Ascii List Bool DecimalString DecimalZ.
From stdpp Require Import base option list strings gmap.

Set Warnings "-register-all".
Local Open Scope string_scope.
Local Open Scope Z_scope.

(** ** Python values, exceptions and builtins *)

Module Py.

(** Exceptions raised by the modelled code and its collaborators. *)
Inductive Exc : Type :=
| AssertionError (msg : string)
| TypeError (msg : string)
| KeyError (key : string)
| ValueError (msg : string)
| UnsupportedType
| InvalidChoice (token : string)
| ConversionError (token : string)
| MissingRequired (flag : string)
| UsageError (msg : string).

Inductive result (A : Type) : Type :=
| Ok (a : A)
| Raise (e : Exc).
Global Arguments Ok {A} a.
Global Arguments Raise {A} e.

Definition bind {A B} (m : result A) (k : A -> result B) : result B :=
  match m with
  | Ok a => k a
  | Raise e => Raise e
  end.

Fixpoint mapM {A B} (f : A -> result B) (l : list A) : result (list B) :=
  match l with
  | [] => Ok []
  | x :: r => bind (f x) (fun y => bind (mapM f r) (fun ys => Ok (y :: ys)))
  end.

(** The runtime values that occur as field defaults, parsed tokens and
    reconstructed field values.  [VOpaque] stands for a non-iterable object
    of any other class ([float], [pathlib.Path], ...) and carries what
    [str()] and [repr()] return for it. *)
Inductive Val : Type :=
| VNone
| VBool (b : bool)
| VInt (z : Z)
| VStr (s : string)
| VEnum (cls name : string) (value : Val)
| VTuple (items : list Val)
| VList (items : list Val)
| VSet (items : list Val)
| VOpaque (cls str_form repr_form : string).

(** [x is None] *)
Definition is_None (v : Val) : bool :=
  match v with VNone => true | _ => false end.

(** [isinstance(x, enum.Enum)] *)
Definition is_Enum (v : Val) : bool :=
  match v with VEnum _ _ _ => true | _ => false end.

(** [hasattr(x, "__iter__")] *)
Definition has_iter (v : Val) : bool :=
  match v with
  | VStr _ | VTuple _ | VList _ | VSet _ => true
  | _ => false
  end.

(** The items produced by iterating over a value; a string iterates over
    its one-character substrings. *)
Fixpoint chars (s : string) : list Val :=
  match s with
  | EmptyString => []
  | String c r => VStr (String c EmptyString) :: chars r
  end.

Definition iter (v : Val) : result (list Val) :=
  match v with
  | VTuple l | VList l | VSet l => Ok l
  | VStr s => Ok (chars s)
  | _ => Raise (TypeError "object is not iterable")
  end.

(** [s.replace(old, new)] for a one-character [old]. *)
Fixpoint replace (old : ascii) (new : string) (s : string) : string :=
  match s with
  | EmptyString => EmptyString
  | String c r =>
      if Ascii.eqb c old then new +:+ replace old new r
      else String c (replace old new r)
  end.

(** [sep.join(parts)] *)
Definition join (sep : string) (parts : list string) : string :=
  String.concat sep parts.

Fixpoint contains (c : ascii) (s : string) : bool :=
  match s with
  | EmptyString => false
  | String d r => Ascii.eqb d c || contains c r
  end.

(** [str(z)] for an [int]: the decimal numeral, with a minus sign. *)
Definition str_int (z : Z) : string :=
  NilZero.string_of_int (Z.to_int z).

(** [int(s)] on the decimal fragment: an optional sign followed by one or
    more ASCII digits.  (Surrounding whitespace and digit-group
    underscores, which [int] also accepts, are outside this fragment.) *)
Definition int_of_str (s : string) : result Z :=
  let bad := Raise (ValueError "invalid literal for int() with base 10") in
  match s with
  | String "+"%char r =>
      match NilZero.uint_of_string r with
      | Some d => Ok (Z.of_uint d)
      | None => bad
      end
  | _ =>
      match NilZero.int_of_string s with
      | Some d => Ok (Z.of_int d)
      | None => bad
      end
  end.

Definition hex_digit (n : N) : ascii :=
  ascii_of_N (if (n <? 10)%N then 48 + n else 87 + n)%N.

Definition dquote : ascii := ascii_of_N 34.

(** One character of the [repr] of a string delimited by [q]. *)
Definition repr_char (q : ascii) (c : ascii) : string :=
  let n := N_of_ascii c in
  if Ascii.eqb c q || Ascii.eqb c "\"%char then String "\"%char (String c EmptyString)
  else if (n =? 9)%N then "\t"
  else if (n =? 10)%N then "\n"
  else if (n =? 13)%N then "\r"
  else if (n <? 32)%N || (n =? 127)%N then
    String "\"%char (String "x"%char (String (hex_digit (n / 16)) (String (hex_digit (n mod 16)) EmptyString)))
  else String c EmptyString.

Fixpoint repr_chars (q : ascii) (s : string) : string :=
  match s with
  | EmptyString => EmptyString
  | String c r => repr_char q c +:+ repr_chars q r
  end.

(** [repr(s)] for a [str]: single quotes unless the text has a single
    quote and no double quote. *)
Definition repr_str (s : string) : string :=
  let q : ascii := if contains "'"%char s && negb (contains dquote s) then dquote else "'"%char in
  String q (repr_chars q s +:+ String q EmptyString).

Definition str_bool (b : bool) : string := if b then "True" else "False".

(** [repr(x)] *)
Fixpoint repr (v : Val) : string :=
  match v with
  | VNone => "None"
  | VBool b => str_bool b
  | VInt z => str_int z
  | VStr s => repr_str s
  | VEnum cls name value => "<" +:+ cls +:+ "." +:+ name +:+ ": " +:+ repr value +:+ ">"
  | VTuple [x] => "(" +:+ repr x +:+ ",)"
  | VTuple l => "(" +:+ join ", " (map repr l) +:+ ")"
  | VList l => "[" +:+ join ", " (map repr l) +:+ "]"
  | VSet [] => "set()"
  | VSet l => "{" +:+ join ", " (map repr l) +:+ "}"
  | VOpaque _ _ r => r
  end.

(** [str(x)] *)
Definition str (v : Val) : string :=
  match v with
  | VStr s => s
  | VEnum cls name _ => cls +:+ "." +:+ name
  | VOpaque _ s _ => s
  | _ => repr v
  end.

(** [shlex.quote(s)]: the characters that need no quoting are
    [[A-Za-z0-9_@%+=:,./-]]. *)
Definition shell_safe (c : ascii) : bool :=
  let n := N_of_ascii c in
  ((48 <=? n) && (n <=? 57) || (65 <=? n) && (n <=? 90) || (97 <=? n) && (n <=? 122))%N
  || existsb (Ascii.eqb c) ["_"; "@"; "%"; "+"; "="; ":"; ","; "."; "/"; "-"]%char.

Fixpoint all_chars (p : ascii -> bool) (s : string) : bool :=
  match s with
  | EmptyString => true
  | String c r => p c && all_chars p r
  end.

Definition shlex_quote (s : string) : string :=
  match s with
  | EmptyString => "''"
  | _ =>
      if all_chars shell_safe s then s
      else "'" +:+ replace "'"%char (String "'"%char (String dquote (String "'"%char (String dquote "'")))) s +:+ "'"
  end.

End Py.

Import Py.

(** Exceptions propagate through stdpp's monadic notation [x ← m; k]. *)
#[global] Instance result_ret : MRet Py.result := @Py.Ok.
#[global] Instance result_bind : MBind Py.result := fun A B k m => Py.bind m k.
#[global] Instance result_fmap : FMap Py.result :=
  fun A B f m => Py.bind m (fun a => Py.Ok (f a)).

(** ** Type annotations and dataclass fields *)

(** The type annotations a field can carry.  [TEnum] lists the members of an
    [enum.Enum] subclass; [TSeq] is a homogeneous variable-length container
    ([List[T]] when [as_tuple] is false, [Tuple[T, ...]] when it is true);
    [TClass] is any other class. *)
Inductive PyType : Type :=
| TBool
| TInt
| TStr
| TEnum (cls : string) (members : list (string * Py.Val))
| TLiteral (constants : list Py.Val)
| TOptional (t : PyType)
| TAnnotated (t : PyType)
| TFinal (t : PyType)
| TTuple (ts : list PyType)
| TSeq (as_tuple : bool) (t : PyType)
| TTypeVar (var : string)
| TClass (cls : string).

Module dataclasses.

(** The attributes of [dataclasses.Field] that the code reads. *)
Record Field : Type := { name : string; type : PyType; init : bool }.

End dataclasses.

(** ** [ArgumentDefinition] *)

(** An instantiator turns what the parser stored for a destination (a token,
    a sequence of tokens, a boolean or [None]) into the field's value. *)
Definition Instantiator : Type := Py.Val -> Py.result Py.Val.

(** [nargs: Optional[Union[int, str]]] *)
Inductive Nargs : Type :=
| NargsInt (n : nat)
| NargsStr (s : string).

(** [metavar: Optional[Union[str, Tuple[str, ...]]]] *)
Inductive Metavar : Type :=
| MetavarStr (s : string)
| MetavarTuple (l : list string).

(** What [_instantiators.instantiator_from_type] returns next to the
    instantiator: the attributes read in
    [_transform_recursive_instantiator_from_type]. *)
Record InstantiatorMetadata : Type := {
  md_nargs : option Nargs;
  md_metavar : option Metavar;
  md_choices : option (list Py.Val);
  md_is_optional : bool
}.

Record ArgumentDefinition : Type := {
  prefix : string;
  field : dataclasses.Field;
  parent_class : string;
  instantiator : option Instantiator;
  name : string;
  type : option PyType;
  default : Py.Val;
  required : bool;
  action : option string;
  nargs : option Nargs;
  choices : option (list Py.Val);
  metavar : option Metavar;
  help : option string;
  dest : option string
}.

(** [dataclasses.replace(a, <attribute>=v)], one function per attribute. *)
Definition set_prefix (v : string) (a : ArgumentDefinition) : ArgumentDefinition :=
  {| prefix := v; field := field a; parent_class := parent_class a; instantiator := instantiator a; name := name a; type := type a; default := default a; required := required a; action := action a; nargs := nargs a; choices := choices a; metavar := metavar a; help := help a; dest := dest a |}.
Definition set_instantiator (v : option Instantiator) (a : ArgumentDefinition) : ArgumentDefinition :=
  {| prefix := prefix a; field := field a; parent_class := parent_class a; instantiator := v; name := name a; type := type a; default := default a; required := required a; action := action a; nargs := nargs a; choices := choices a; metavar := metavar a; help := help a; dest := dest a |}.
Definition set_name (v : string) (a : ArgumentDefinition) : ArgumentDefinition :=
  {| prefix := prefix a; field := field a; parent_class := parent_class a; instantiator := instantiator a; name := v; type := type a; default := default a; required := required a; action := action a; nargs := nargs a; choices := choices a; metavar := metavar a; help := help a; dest := dest a |}.
Definition set_type (v : option PyType) (a : ArgumentDefinition) : ArgumentDefinition :=
  {| prefix := prefix a; field := field a; parent_class := parent_class a; instantiator := instantiator a; name := name a; type := v; default := default a; required := required a; action := action a; nargs := nargs a; choices := choices a; metavar := metavar a; help := help a; dest := dest a |}.
Definition set_default (v : Py.Val) (a : ArgumentDefinition) : ArgumentDefinition :=
  {| prefix := prefix a; field := field a; parent_class := parent_class a; instantiator := instantiator a; name := name a; type := type a; default := v; required := required a; action := action a; nargs := nargs a; choices := choices a; metavar := metavar a; help := help a; dest := dest a |}.
Definition set_required (v : bool) (a : ArgumentDefinition) : ArgumentDefinition :=
  {| prefix := prefix a; field := field a; parent_class := parent_class a; instantiator := instantiator a; name := name a; type := type a; default := default a; required := v; action := action a; nargs := nargs a; choices := choices a; metavar := metavar a; help := help a; dest := dest a |}.
Definition set_action (v : option string) (a : ArgumentDefinition) : ArgumentDefinition :=
  {| prefix := prefix a; field := field a; parent_class := parent_class a; instantiator := instantiator a; name := name a; type := type a; default := default a; required := required a; action := v; nargs := nargs a; choices := choices a; metavar := metavar a; help := help a; dest := dest a |}.
Definition set_nargs (v : option Nargs) (a : ArgumentDefinition) : ArgumentDefinition :=
  {| prefix := prefix a; field := field a; parent_class := parent_class a; instantiator := instantiator a; name := name a; type := type a; default := default a; required := required a; action := action a; nargs := v; choices := choices a; metavar := metavar a; help := help a; dest := dest a |}.
Definition set_choices (v : option (list Py.Val)) (a : ArgumentDefinition) : ArgumentDefinition :=
  {| prefix := prefix a; field := field a; parent_class := parent_class a; instantiator := instantiator a; name := name a; type := type a; default := default a; required := required a; action := action a; nargs := nargs a; choices := v; metavar := metavar a; help := help a; dest := dest a |}.
Definition set_metavar (v : option Metavar) (a : ArgumentDefinition) : ArgumentDefinition :=
  {| prefix := prefix a; field := field a; parent_class := parent_class a; instantiator := instantiator a; name := name a; type := type a; default := default a; required := required a; action := action a; nargs := nargs a; choices := choices a; metavar := v; help := help a; dest := dest a |}.
Definition set_help (v : option string) (a : ArgumentDefinition) : ArgumentDefinition :=
  {| prefix := prefix a; field := field a; parent_class := parent_class a; instantiator := instantiator a; name := name a; type := type a; default := default a; required := required a; action := action a; nargs := nargs a; choices := choices a; metavar := metavar a; help := v; dest := dest a |}.
Definition set_dest (v : option string) (a : ArgumentDefinition) : ArgumentDefinition :=
  {| prefix := prefix a; field := field a; parent_class := parent_class a; instantiator := instantiator a; name := name a; type := type a; default := default a; required := required a; action := action a; nargs := nargs a; choices := choices a; metavar := metavar a; help := help a; dest := v |}.

(** ** The transformation pipeline *)

(** [x is not None] for an optional attribute. *)
Definition not_None {A} (o : option A) : bool :=
  match o with Some _ => true | None => false end.

(** [x.name] for an enum member. *)
Definition enum_name (v : Py.Val) : string :=
  match v with
  | VEnum _ n _ => n
  | _ => EmptyString
  end.

(** The local helper [as_str] of [_transform_convert_defaults_to_strings]. *)
Definition as_str (x : Py.Val) : string :=
  if is_Enum x then enum_name x else Py.str x.

Definition _transform_required_if_default_set (arg : ArgumentDefinition)
  : ArgumentDefinition :=
  if is_None (default arg) then set_required true arg else arg.

(** The instantiator [lambda x: x] given to boolean flags. *)
Definition identity_instantiator : Instantiator := fun x => Ok x.

Definition _transform_handle_boolean_flags (arg : ArgumentDefinition)
  : Py.result ArgumentDefinition :=
  match type arg with
  | Some TBool =>
      match default arg with
      | VNone => Ok arg
      | VBool false =>
          Ok (set_instantiator (Some identity_instantiator)
                (set_type None (set_action (Some "store_true") arg)))
      | VBool true =>
          Ok (set_instantiator (Some identity_instantiator)
                (set_type None
                   (set_action (Some "store_false")
                      (set_name ("no_" +:+ name arg)
                         (set_dest (Some (name arg)) arg)))))
      | _ => Raise (AssertionError "Invalid default")
      end
  | _ => Ok arg
  end.

(** [type_from_typevar: Dict[TypeVar, Type]] *)
Abbreviation TypeVarMap := (gmap string PyType).

Section Pipeline.

(** The two collaborators of this module whose code lives elsewhere:
    [_docstrings.get_field_docstring(parent_class, field_name)] and
    [_instantiators.instantiator_from_type(typ, type_from_typevar)]. *)
Variable get_field_docstring : string -> string -> option string.
Variable instantiator_from_type :
  option PyType -> TypeVarMap -> Py.result (Instantiator * InstantiatorMetadata).

Definition _transform_recursive_instantiator_from_type
    (arg : ArgumentDefinition) (type_from_typevar : TypeVarMap)
  : Py.result ArgumentDefinition :=
  match instantiator arg with
  | Some _ => Ok arg
  | None =>
      '(inst, metadata) ← instantiator_from_type (type arg) type_from_typevar;
      Ok (set_metavar (if not_None (md_choices metadata) then None else md_metavar metadata)
            (set_required (negb (md_is_optional metadata) && required arg)
               (set_nargs (md_nargs metadata)
                  (set_choices (md_choices metadata)
                     (set_instantiator (Some inst) arg)))))
  end.

Definition default_note (text : string) : string :=
  "(default: " +:+ text +:+ ")".

Definition _transform_generate_helptext (arg : ArgumentDefinition)
  : Py.result ArgumentDefinition :=
  let help_parts :=
    match get_field_docstring (parent_class arg) (dataclasses.name (field arg)) with
    | Some docstring_help => [Py.replace "%" "%%" docstring_help]
    | None => []
    end in
  help_parts ←
    match action arg with
    | Some a =>
        if String.eqb a "store_true" || String.eqb a "store_false" then Ok help_parts
        else Raise (AssertionError EmptyString)
    | None =>
        if negb (is_None (default arg)) && is_Enum (default arg) then
          Ok (help_parts ++ [default_note (enum_name (default arg))])%list
        else if negb (required arg) then
          if not_None (nargs arg) && has_iter (default arg) then
            items ← Py.iter (default arg);
            Ok (help_parts ++
                  [default_note (Py.join " " (map Py.shlex_quote (map Py.str items)))])%list
          else
            Ok (help_parts ++ [default_note (Py.shlex_quote (Py.str (default arg)))])%list
        else Ok help_parts
    end;
  Ok (set_help (Some (Py.join " " help_parts)) arg).

Definition _transform_convert_defaults_to_strings (arg : ArgumentDefinition)
  : Py.result ArgumentDefinition :=
  if is_None (default arg) || not_None (action arg) then Ok arg
  else if not_None (nargs arg) then
    items ← Py.iter (default arg);
    Ok (set_default (VTuple (map (fun x => VStr (as_str x)) items)) arg)
  else Ok (set_default (VStr (as_str (default arg))) arg).

Definition make_from_field (parent_class : string) (field : dataclasses.Field)
    (type_from_typevar : TypeVarMap) (default : Py.Val)
  : Py.result ArgumentDefinition :=
  if negb (dataclasses.init field) then
    Raise (AssertionError "Field must be in class constructor")
  else
    let arg :=
      {| prefix := EmptyString; field := field; parent_class := parent_class;
         instantiator := None; name := dataclasses.name field;
         type := Some (dataclasses.type field); default := default;
         required := false; action := None; nargs := None; choices := None;
         metavar := None; help := None; dest := None |} in
    let arg := _transform_required_if_default_set arg in
    arg ← _transform_handle_boolean_flags arg;
    arg ← _transform_recursive_instantiator_from_type arg type_from_typevar;
    arg ← _transform_generate_helptext arg;
    arg ← _transform_convert_defaults_to_strings arg;
    Ok arg.

End Pipeline.

(** ** Flags and registration with the parser *)

Definition get_flag (self : ArgumentDefinition) : string :=
  "--" +:+ Py.replace "_" "-" (prefix self +:+ name self).

(** The objects stored in the attributes of an [ArgumentDefinition] and in
    the keyword arguments built from them. *)
Inductive Attr : Type :=
| AVal (v : Py.Val)
| AType (t : PyType)
| AField (f : dataclasses.Field)
| AInstantiator (i : Instantiator).

Definition nargs_val (n : Nargs) : Py.Val :=
  match n with
  | NargsInt k => VInt (Z.of_nat k)
  | NargsStr s => VStr s
  end.

Definition metavar_val (m : Metavar) : Py.Val :=
  match m with
  | MetavarStr s => VStr s
  | MetavarTuple l => VTuple (map VStr l)
  end.

(** [vars(self).items()]: every attribute with its value, [None] standing
    for Python's [None]. *)
Definition vars (self : ArgumentDefinition) : list (string * option Attr) :=
  [ ("prefix", Some (AVal (VStr (prefix self))));
    ("field", Some (AField (field self)));
    ("parent_class", Some (AType (TClass (parent_class self))));
    ("instantiator", AInstantiator <$> instantiator self);
    ("name", Some (AVal (VStr (name self))));
    ("type", AType <$> type self);
    ("default", if is_None (default self) then None else Some (AVal (default self)));
    ("required", Some (AVal (VBool (required self))));
    ("action", (fun a => AVal (VStr a)) <$> action self);
    ("nargs", (fun n => AVal (nargs_val n)) <$> nargs self);
    ("choices", (fun c => AVal (VSet c)) <$> choices self);
    ("metavar", (fun m => AVal (metavar_val m)) <$> metavar self);
    ("help", (fun h => AVal (VStr h)) <$> help self);
    ("dest", (fun d => AVal (VStr d)) <$> dest self) ].

(** [{k: v for k, v in items if v is not None}] *)
Definition drop_None (items : list (string * option Attr)) : gmap string Attr :=
  list_to_map (omap (fun kv => (fun v => (kv.1, v)) <$> kv.2) items).

(** [kwargs.pop(key)] *)
Definition pop (key : string) (kwargs : gmap string Attr)
  : Py.result (gmap string Attr) :=
  match kwargs !! key with
  | Some _ => Ok (delete key kwargs)
  | None => Raise (KeyError key)
  end.

(** [add_argument] up to its last line: the flag and the keyword arguments
    with which [parser.add_argument] is called. *)
Definition add_argument (self : ArgumentDefinition)
  : Py.result (string * gmap string Attr) :=
  let kwargs := drop_None (vars self) in
  kwargs ←
    match kwargs !! "dest" with
    | Some (AVal (VStr d)) => Ok (<["dest" := AVal (VStr (prefix self +:+ d))]> kwargs)
    | Some _ => Raise (TypeError "can only concatenate str")
    | None => Ok kwargs
    end;
  let kwargs :=
    match kwargs !! "type" with
    | Some _ => <["type" := AType TStr]> kwargs
    | None => kwargs
    end in
  kwargs ←
    match kwargs !! "choices" with
    | Some (AVal c) =>
        items ← Py.iter c;
        Ok (<["choices" := AVal (VList (map (fun x => VStr (Py.str x)) items))]> kwargs)
    | Some _ => Raise (TypeError "object is not iterable")
    | None => Ok kwargs
    end;
  kwargs ← pop "field" kwargs;
  kwargs ← pop "parent_class" kwargs;
  kwargs ← pop "prefix" kwargs;
  kwargs ← pop "instantiator" kwargs;
  kwargs ← pop "name" kwargs;
  Ok (get_flag self, kwargs).

(** ** The token-parsing engine *)

Module argparse.

(** Modelled from the spec: the external token-parsing engine of section 6
    (Python's [argparse]), which is no part of this module.  The model
    covers optional arguments spelled exactly as registered, the actions
    [store], [store_true] and [store_false], and the arities none, fixed
    and variadic; abbreviated flags and [--flag=value] are outside it. *)
Record Action : Type := {
  option_string : string;
  dest : string;
  kind : string;
  nargs : option Nargs;
  default : Py.Val;
  required : bool;
  choices : option (list Py.Val)
}.

Fixpoint lstrip (c : ascii) (s : string) : string :=
  match s with
  | EmptyString => EmptyString
  | String d r => if Ascii.eqb d c then lstrip c r else s
  end.

(** The destination inferred from a flag when no [dest] is given:
    the flag without its leading hyphens, the remaining hyphens turned into
    underscores. *)
Definition dest_of_flag (flag : string) : Py.result string :=
  match lstrip "-" flag with
  | EmptyString => Raise (ValueError "dest= is required")
  | d => Ok (Py.replace "-" "_" d)
  end.

Definition kwarg_str (kwargs : gmap string Attr) (key : string)
  : Py.result (option string) :=
  match kwargs !! key with
  | None => Ok None
  | Some (AVal (VStr s)) => Ok (Some s)
  | Some _ => Raise (TypeError key)
  end.

Definition has_any (kwargs : gmap string Attr) (keys : list string) : bool :=
  existsb (fun k => not_None (kwargs !! k)) keys.

(** [parser.add_argument(flag, **kwargs)] *)
Definition add_argument (flag : string) (kwargs : gmap string Attr)
  : Py.result Action :=
  a ← kwarg_str kwargs "action";
  let kind := match a with Some k => k | None => "store" end in
  d ← kwarg_str kwargs "dest";
  dest ← match d with Some d => Ok d | None => dest_of_flag flag end;
  required ←
    match kwargs !! "required" with
    | None => Ok false
    | Some (AVal (VBool b)) => Ok b
    | Some _ => Raise (TypeError "required")
    end;
  given ←
    match kwargs !! "default" with
    | None => Ok None
    | Some (AVal v) => Ok (Some v)
    | Some _ => Raise (TypeError "default")
    end;
  if String.eqb kind "store_true" || String.eqb kind "store_false" then
    if has_any kwargs ["type"; "nargs"; "choices"; "metavar"] then
      Raise (TypeError "unexpected keyword argument")
    else
      Ok {| option_string := flag; dest := dest; kind := kind; nargs := None;
            default := match given with
                       | Some v => v
                       | None => VBool (String.eqb kind "store_false")
                       end;
            required := required; choices := None |}
  else if String.eqb kind "store" then
    _ ← match kwargs !! "type" with
        | None | Some (AType TStr) => Ok ()
        | Some _ => Raise (TypeError "type")
        end;
    nargs ←
      match kwargs !! "nargs" with
      | None => Ok None
      | Some (AVal (VInt n)) => Ok (Some (NargsInt (Z.to_nat n)))
      | Some (AVal (VStr s)) => Ok (Some (NargsStr s))
      | Some _ => Raise (TypeError "nargs")
      end;
    choices ←
      match kwargs !! "choices" with
      | None => Ok None
      | Some (AVal c) => Some <$> Py.iter c
      | Some _ => Raise (TypeError "choices")
      end;
    Ok {| option_string := flag; dest := dest; kind := kind; nargs := nargs;
          default := match given with Some v => v | None => VNone end;
          required := required; choices := choices |}
  else Raise (ValueError "unknown action").

Definition is_digit (c : ascii) : bool :=
  let n := N_of_ascii c in ((48 <=? n) && (n <=? 57))%N.

(** Tokens such as [-5] or [-.5] are arguments, not flags. *)
Fixpoint negative_number_tail (seen_digit seen_dot : bool) (s : string) : bool :=
  match s with
  | EmptyString => seen_digit
  | String c r =>
      if is_digit c then negative_number_tail true seen_dot r
      else if Ascii.eqb c "." && negb seen_dot then negative_number_tail false true r
      else false
  end.

Definition is_flag (token : string) : bool :=
  match token with
  | String "-" (String c r) => negb (negative_number_tail false false (String c r))
  | _ => false
  end.












End argparse.

(** ** The type resolver *)

Module instantiators.

(** A token handed over by the parsing engine. *)
Definition token (v : Py.Val) : Py.result string :=
  match v with
  | VStr s => Ok s
  | _ => Raise (TypeError "expected a string token")
  end.

(** Modelled from the spec: the instantiators of
    [_instantiators.instantiator_from_type], whose module is not part of the
    sources at hand, after the resolution rules of section 4.1.  Rule 10, a
    primitive type: a direct string-to-value conversion, a failure being a
    ConversionError; for [bool] only the two spellings [True] and [False]
    are accepted (section 4.2). *)
Definition from_bool : Instantiator := fun v =>
  s ← token v;
  if String.eqb s "True" then Ok (VBool true)
  else if String.eqb s "False" then Ok (VBool false)
  else Raise (ConversionError s).

Definition from_int : Instantiator := fun v =>
  s ← token v;
  match Py.int_of_str s with
  | Ok z => Ok (VInt z)
  | Raise _ => Raise (ConversionError s)
  end.

Definition from_str : Instantiator := fun v =>
  s ← token v; Ok (VStr s).

(** Modelled from the spec: rule 6, an enumerated type: case-sensitive
    lookup of the member name, InvalidChoice otherwise. *)
Definition from_enum (cls : string) (members : list (string * Py.Val))
  : Instantiator := fun v =>
  s ← token v;
  match find (fun m => String.eqb m.1 s) members with
  | Some (n, x) => Ok (VEnum cls n x)
  | None => Raise (InvalidChoice s)
  end.

(** Modelled from the spec: rule 5, a closed literal-value type: exact
    reverse lookup of the token among the stringified constants (an enum
    member being spelled by its name, as [test_literal_enum] has it),
    InvalidChoice otherwise. *)
Definition from_literal (constants : list Py.Val) : Instantiator := fun v =>
  s ← token v;
  match find (fun c => String.eqb (as_str c) s) constants with
  | Some c => Ok c
  | None => Raise (InvalidChoice s)
  end.

(** Modelled from the spec: rule 4, an optional type: an absent token yields
    the absent marker. *)
Definition from_optional (inner : Instantiator) : Instantiator := fun v =>
  if is_None v then Ok VNone else inner v.

Fixpoint positionally (insts : list Instantiator) (items : list Py.Val)
  : Py.result (list Py.Val) :=
  match insts, items with
  | [], [] => Ok []
  | inst :: insts', item :: items' =>
      x ← inst item; xs ← positionally insts' items'; Ok (x :: xs)
  | _, _ => Raise (ValueError "wrong number of tokens")
  end.

(** Modelled from the spec: rule 7, a fixed-size heterogeneous container:
    each element's instantiator is applied positionally. *)
Definition from_tuple (insts : list Instantiator) : Instantiator := fun v =>
  items ← Py.iter v; VTuple <$> positionally insts items.

(** Modelled from the spec: rule 8, a homogeneous variable-length container:
    the element instantiator is applied to every token and the container
    kind is reassembled. *)
Definition from_seq (as_tuple : bool) (inner : Instantiator) : Instantiator := fun v =>
  items ← Py.iter v;
  xs ← mapM inner items;
  Ok (if as_tuple then VTuple xs else VList xs).

Definition scalar_metadata (hint : string) (choices : option (list Py.Val))
  : InstantiatorMetadata :=
  {| md_nargs := None;
     md_metavar := if not_None choices then None else Some (MetavarStr hint);
     md_choices := choices; md_is_optional := false |}.

(** Modelled from the spec: the resolution rules of section 4.1 in their
    priority order, for a type without type variables.  Rule 3 (fields
    outside the constructor) and rule 9 (nested records) are applied by the
    caller before a field reaches the resolver. *)
Fixpoint resolve (t : PyType) : Py.result (Instantiator * InstantiatorMetadata) :=
  match t with
  | TAnnotated t' | TFinal t' => resolve t'
  | TTypeVar _ => Raise UnsupportedType
  | TOptional t' =>
      '(inst, md) ← resolve t';
      Ok (from_optional inst,
          {| md_nargs := md_nargs md; md_metavar := md_metavar md;
             md_choices := md_choices md; md_is_optional := true |})
  | TLiteral constants =>
      Ok (from_literal constants,
          scalar_metadata EmptyString (Some ((fun c => VStr (as_str c)) <$> constants)))
  | TEnum cls members =>
      Ok (from_enum cls members,
          scalar_metadata EmptyString (Some ((fun m => VStr m.1) <$> members)))
  | TTuple ts =>
      insts ← (fix each (ts : list PyType) : Py.result (list Instantiator) :=
                 match ts with
                 | [] => Ok []
                 | t' :: r => p ← resolve t'; l ← each r; Ok (p.1 :: l)
                 end) ts;
      Ok (from_tuple insts,
          {| md_nargs := Some (NargsInt (length ts)); md_metavar := None;
             md_choices := None; md_is_optional := false |})
  | TSeq as_tuple t' =>
      '(inst, md) ← resolve t';
      Ok (from_seq as_tuple inst,
          {| md_nargs := Some (NargsStr "+"); md_metavar := md_metavar md;
             md_choices := md_choices md; md_is_optional := false |})
  | TBool => Ok (from_bool, scalar_metadata "BOOL" None)
  | TInt => Ok (from_int, scalar_metadata "INT" None)
  | TStr => Ok (from_str, scalar_metadata "STR" None)
  | TClass _ => Raise UnsupportedType
  end.

(** Modelled from the spec: rule 2, a generic type parameter is replaced by
    its image in the caller's mapping before resolution continues. *)
Fixpoint substitute (type_from_typevar : TypeVarMap) (t : PyType) : PyType :=
  match t with
  | TTypeVar v =>
      match type_from_typevar !! v with
      | Some t' => t'
      | None => t
      end
  | TOptional t' => TOptional (substitute type_from_typevar t')
  | TAnnotated t' => TAnnotated (substitute type_from_typevar t')
  | TFinal t' => TFinal (substitute type_from_typevar t')
  | TTuple ts => TTuple (map (substitute type_from_typevar) ts)
  | TSeq k t' => TSeq k (substitute type_from_typevar t')
  | _ => t
  end.

(** Modelled from the spec: [instantiator_from_type(typ, type_from_typevar)],
    rule 11 covering a missing annotation. *)
Definition instantiator_from_type (typ : option PyType) (type_from_typevar : TypeVarMap)
  : Py.result (Instantiator * InstantiatorMetadata) :=
  match typ with
  | Some t => resolve (substitute type_from_typevar t)
  | None => Raise UnsupportedType
  end.

End instantiators.

(** ** The entry point *)

Module parsers.


Section Parse.

Variable get_field_docstring : string -> string -> option string.


Definition register (arg : ArgumentDefinition) : Py.result argparse.Action :=
  '(flag, kwargs) ← add_argument arg;
  argparse.add_argument flag kwargs.



End Parse.

End parsers.

(** ** Values of a type *)




(** ** The definitions the pipeline arrives at *)

(** What [make_from_field] hands to its last stage for a field that goes
    through the resolver, given the resolver's instantiator and metadata and
    the composed help text. *)
Definition resolved_definition (cls : string) (f : dataclasses.Field) (d : Py.Val)
    (inst : Instantiator) (md : InstantiatorMetadata) (h : string)
  : ArgumentDefinition :=
  {| prefix := EmptyString; field := f; parent_class := cls;
     instantiator := Some inst; name := dataclasses.name f;
     type := Some (dataclasses.type f); default := d;
     required := negb (md_is_optional md) && is_None d;
     action := None; nargs := md_nargs md; choices := md_choices md;
     metavar := if not_None (md_choices md) then None else md_metavar md;
     help := Some h; dest := None |}.

(** What [make_from_field] returns for a [bool] field whose default is the
    boolean [b], given the composed help text. *)
Definition flag_definition (cls : string) (f : dataclasses.Field) (b : bool) (h : string)
  : ArgumentDefinition :=
  {| prefix := EmptyString; field := f; parent_class := cls;
     instantiator := Some identity_instantiator;
     name := if b then "no_" +:+ dataclasses.name f else dataclasses.name f;
     type := None; default := VBool b; required := false;
     action := Some (if b then "store_false" else "store_true");
     nargs := None; choices := None; metavar := None; help := Some h;
     dest := if b then Some (dataclasses.name f) else None |}.

(** A name from which the engine infers itself as destination: it is not
    empty, does not begin with an underscore or a hyphen, and has no hyphen
    further on. *)
Definition plain_name (s : string) : bool :=
  match s with
  | EmptyString => false
  | String c r =>
      negb (Ascii.eqb c "_") && negb (Ascii.eqb c "-") && negb (Py.contains "-" r)
  end.

(** What [replace("_", "-")] makes of one character. *)
Definition hyphen_for_underscore (c : ascii) : ascii :=
  if Ascii.eqb c "_" then "-"%char else c.

(** * Properties *)

(** ** Proof support *)

Ltac unfold_bind :=
  unfold mbind, result_bind, fmap, result_fmap, mret, result_ret, Py.bind in *.

(** Case analysis on the outcome of the computation a goal or hypothesis
    branches on. *)
Ltac case_result :=
  match goal with
  | H : context [match ?m with Ok _ => _ | Raise _ => _ end] |- _ =>
      let E := fresh "E" in destruct m eqn:E; try discriminate H
  | |- context [match ?m with Ok _ => _ | Raise _ => _ end] =>
      let E := fresh "E" in destruct m eqn:E
  end.

Lemma set_help_same (a : ArgumentDefinition) : set_help (help a) a = a.
Proof. by destruct a. Qed.

Lemma set_default_same (a : ArgumentDefinition) : set_default (default a) a = a.
Proof. by destruct a. Qed.

Lemma iter_has_iter (v : Py.Val) :
  has_iter v = true -> exists items, Py.iter v = Ok items.
Proof. destruct v; simpl; intros H; try discriminate H; eauto. Qed.

Section PipelineShape.

Variable get_field_docstring : string -> string -> option string.
Variable instantiator_from_type :
  option PyType -> TypeVarMap -> Py.result (Instantiator * InstantiatorMetadata).

(** The help stage changes nothing but [help]. *)
Lemma helptext_shape (a a' : ArgumentDefinition) :
  _transform_generate_helptext get_field_docstring a = Ok a' ->
  exists h, a' = set_help (Some h) a.
Proof.
  unfold _transform_generate_helptext. unfold_bind. intros H.
  case_result. injection H as <-. eauto.
Qed.

(** The help stage succeeds on every definition whose action, if any, is
    one of the two flag actions. *)
Lemma helptext_total (a : ArgumentDefinition) :
  (action a = None \/ action a = Some "store_true" \/ action a = Some "store_false") ->
  exists h, _transform_generate_helptext get_field_docstring a = Ok (set_help (Some h) a).
Proof.
  unfold _transform_generate_helptext. unfold_bind. intros Ha.
  set (parts := match get_field_docstring _ _ with Some _ => _ | None => _ end).
  destruct Ha as [-> | [-> | ->]]; simpl; eauto.
  destruct (negb (is_None (default a)) && is_Enum (default a)); eauto.
  destruct (negb (required a)); eauto.
  destruct (not_None (nargs a) && has_iter (default a)) eqn:E; eauto.
  apply andb_prop in E as [_ Hi]. apply iter_has_iter in Hi as [items ->]. eauto.
Qed.

(** The default-rendering stage changes nothing but [default]. *)
Lemma convert_shape (a a' : ArgumentDefinition) :
  _transform_convert_defaults_to_strings a = Ok a' ->
  exists d, a' = set_default d a.
Proof.
  unfold _transform_convert_defaults_to_strings. unfold_bind. intros H.
  destruct (is_None (default a) || not_None (action a)).
  { injection H as <-. exists (default a). by rewrite set_default_same. }
  destruct (not_None (nargs a)).
  - case_result. injection H as <-. eauto.
  - injection H as <-. eauto.
Qed.

(** The resolver stage leaves a definition that has an instantiator alone and
    otherwise installs what the resolver returns. *)
Lemma resolver_shape (a a' : ArgumentDefinition) (tv : TypeVarMap) :
  _transform_recursive_instantiator_from_type instantiator_from_type a tv = Ok a' ->
  (not_None (instantiator a) = true /\ a' = a) \/
  (instantiator a = None /\ exists inst md,
     instantiator_from_type (type a) tv = Ok (inst, md) /\
     a' = set_metavar (if not_None (md_choices md) then None else md_metavar md)
            (set_required (negb (md_is_optional md) && required a)
               (set_nargs (md_nargs md)
                  (set_choices (md_choices md) (set_instantiator (Some inst) a))))).
Proof.
  unfold _transform_recursive_instantiator_from_type. unfold_bind. intros H.
  destruct (instantiator a).
  - left. by injection H as <-.
  - right. split; [done|]. case_result. destruct a0 as [inst md].
    injection H as <-. eauto.
Qed.

(** The outcome of the boolean stage, case by case. *)
Lemma boolean_flags_cases (a : ArgumentDefinition) :
  _transform_handle_boolean_flags a =
    match type a, default a with
    | Some TBool, VBool false =>
        Ok (set_instantiator (Some identity_instantiator)
              (set_type None (set_action (Some "store_true") a)))
    | Some TBool, VBool true =>
        Ok (set_instantiator (Some identity_instantiator)
              (set_type None
                 (set_action (Some "store_false")
                    (set_name ("no_" +:+ name a) (set_dest (Some (name a)) a)))))
    | Some TBool, VNone => Ok a
    | Some TBool, _ => Raise (AssertionError "Invalid default")
    | _, _ => Ok a
    end.
Proof.
  unfold _transform_handle_boolean_flags.
  destruct (type a) as [[]|]; try reflexivity; by destruct (default a) as [|[]| | | | | | |].
Qed.

(** A field outside the constructor is refused. *)
Lemma make_from_field_not_init cls (f : dataclasses.Field) tv d :
  dataclasses.init f = false ->
  make_from_field get_field_docstring instantiator_from_type cls f tv d
  = Raise (AssertionError "Field must be in class constructor").
Proof. intros H. unfold make_from_field. by rewrite H. Qed.

(** A [bool] field with a boolean default becomes a flag, whatever the
    resolver is; its help text is the field's documentation. *)
Lemma make_from_field_flag cls (f : dataclasses.Field) tv (b : bool) :
  dataclasses.init f = true -> dataclasses.type f = TBool ->
  make_from_field get_field_docstring instantiator_from_type cls f tv (VBool b)
  = Ok (flag_definition cls f b
          (Py.join " " match get_field_docstring cls (dataclasses.name f) with
                       | Some s => [Py.replace "%" "%%" s]
                       | None => []
                       end)).
Proof.
  intros Hi Ht. unfold make_from_field. rewrite Hi. simpl negb. cbv iota.
  rewrite boolean_flags_cases. simpl. rewrite Ht.
  destruct b; simpl; unfold_bind; simpl; reflexivity.
Qed.

(** A [bool] field with any other default but [None] fails the assertion. *)
Lemma make_from_field_invalid_default cls (f : dataclasses.Field) tv d :
  dataclasses.init f = true -> dataclasses.type f = TBool ->
  is_None d = false -> (forall b, d <> VBool b) ->
  make_from_field get_field_docstring instantiator_from_type cls f tv d
  = Raise (AssertionError "Invalid default").
Proof.
  intros Hi Ht Hn Hb. unfold make_from_field. rewrite Hi. simpl negb. cbv iota.
  rewrite boolean_flags_cases. unfold _transform_required_if_default_set.
  cbn [default]. rewrite Hn. simpl. rewrite Ht.
  destruct d as [|b| | | | | | |]; try reflexivity; [discriminate | by destruct (Hb b)].
Qed.

(** Every other field goes through the resolver, and then the help and
    default-rendering stages. *)
Lemma make_from_field_generic cls (f : dataclasses.Field) tv d :
  dataclasses.init f = true ->
  dataclasses.type f <> TBool \/ d = VNone ->
  make_from_field get_field_docstring instantiator_from_type cls f tv d
  = match instantiator_from_type (Some (dataclasses.type f)) tv with
    | Ok (inst, md) =>
        match _transform_generate_helptext get_field_docstring
                (resolved_definition cls f d inst md EmptyString) with
        | Ok a => _transform_convert_defaults_to_strings a
        | Raise e => Raise e
        end
    | Raise e => Raise e
    end.
Proof.
  intros Hi Hg. unfold make_from_field. rewrite Hi. simpl negb. cbv iota.
  rewrite boolean_flags_cases. unfold _transform_required_if_default_set.
  cbn [default].
  set (a0 := if is_None d then _ else _).
  assert (Hb : match type a0, default a0 with
               | Some TBool, VBool _ => False
               | Some TBool, VNone => True
               | Some TBool, _ => False
               | _, _ => True
               end).
  { subst a0. destruct Hg as [Hg | ->]; [|by simpl; destruct (dataclasses.type f)].
    destruct (is_None d); simpl; destruct (dataclasses.type f); try done. }
  assert (Hk : match type a0, default a0 with
       | Some TBool, VBool false =>
           Ok (set_instantiator (Some identity_instantiator)
                 (set_type None (set_action (Some "store_true") a0)))
       | Some TBool, VBool true =>
           Ok (set_instantiator (Some identity_instantiator)
                 (set_type None
                    (set_action (Some "store_false")
                       (set_name ("no_" +:+ name a0) (set_dest (Some (name a0)) a0)))))
       | Some TBool, VNone => Ok a0
       | Some TBool, _ => Raise (AssertionError "Invalid default")
       | _, _ => Ok a0
       end = Ok a0).
  { destruct (type a0) as [[]|]; try reflexivity.
    destruct (default a0) as [|[]| | | | | | |]; try reflexivity; by destruct Hb. }
  rewrite Hk. clear Hk Hb. unfold_bind.
  unfold _transform_recursive_instantiator_from_type. unfold_bind.
  assert (instantiator a0 = None) as -> by (subst a0; by destruct (is_None d)).
  assert (type a0 = Some (dataclasses.type f)) as -> by (subst a0; by destruct (is_None d)).
  destruct (instantiator_from_type _ tv) as [[inst md]|e]; [|done].
  assert (set_metavar (if not_None (md_choices md) then None else md_metavar md)
            (set_required (negb (md_is_optional md) && required a0)
               (set_nargs (md_nargs md)
                  (set_choices (md_choices md) (set_instantiator (Some inst) a0))))
          = set_help None (resolved_definition cls f d inst md EmptyString)) as ->.
  { subst a0. unfold resolved_definition. by destruct (is_None d). }
  unfold _transform_generate_helptext. unfold_bind. simpl.
  match goal with
  | |- match match ?P with _ => _ end with _ => _ end = _ => destruct P as [parts|e]; [|done]
  end.
  unfold set_help, resolved_definition. simpl. by case_match.
Qed.

(** A definition that [make_from_field] returns is either a flag definition
    or the rendering of a resolved definition. *)
Lemma make_from_field_inv cls (f : dataclasses.Field) tv d arg :
  make_from_field get_field_docstring instantiator_from_type cls f tv d = Ok arg ->
  dataclasses.init f = true /\
  ((dataclasses.type f = TBool /\ exists b h, d = VBool b /\ arg = flag_definition cls f b h) \/
   ((dataclasses.type f <> TBool \/ d = VNone) /\
    exists inst md h d',
      instantiator_from_type (Some (dataclasses.type f)) tv = Ok (inst, md) /\
      _transform_convert_defaults_to_strings (resolved_definition cls f d inst md h) = Ok arg /\
      arg = set_default d' (resolved_definition cls f d inst md h))).
Proof.
  intros H.
  destruct (dataclasses.init f) eqn:Hi;
    [|by rewrite make_from_field_not_init in H].
  split; [done|].
  assert (Hc : (dataclasses.type f = TBool /\ exists b, d = VBool b) \/
               (dataclasses.type f = TBool /\ is_None d = false /\ forall b, d <> VBool b) \/
               (dataclasses.type f <> TBool \/ d = VNone)).
  { destruct (dataclasses.type f); try (right; right; left; discriminate).
    destruct d; eauto; right; left; repeat split; discriminate. }
  destruct Hc as [[Ht [b ->]] | [[Ht [Hn Hb]] | Hg]].
  - left. split; [done|]. rewrite make_from_field_flag in H by done.
    injection H as <-. eauto.
  - by rewrite make_from_field_invalid_default in H.
  - right. split; [done|]. rewrite make_from_field_generic in H by done.
    destruct (instantiator_from_type _ tv) as [[inst md]|e]; [|done].
    case_result. apply helptext_shape in E as [h ->].
    destruct (convert_shape _ _ H) as [d' Hd'].
    exists inst, md, h, d'. by repeat split.
Qed.

End PipelineShape.

(** ** The required flag (C4) *)

(** C4. For every argument definition that [make_from_field] produces,
    [required] is true exactly when the field has no default (the default is
    [None]) and the type resolver reports the field's type as not optional;
    so it is false whenever a default is set, and false whenever the
    resolved type is optional. *)
Theorem required_iff_no_default_and_not_optional
    (docs : string -> string -> option string)
    (resolver : option PyType -> TypeVarMap -> Py.result (Instantiator * InstantiatorMetadata))
    cls (f : dataclasses.Field) tv d arg :
  make_from_field docs resolver cls f tv d = Ok arg ->
  (required arg = true <->
     d = VNone /\ exists inst md,
       resolver (Some (dataclasses.type f)) tv = Ok (inst, md) /\
       md_is_optional md = false) /\
  (d <> VNone -> required arg = false) /\
  (forall inst md,
     resolver (Some (dataclasses.type f)) tv = Ok (inst, md) ->
     md_is_optional md = true -> required arg = false).
Proof.
  intros H. apply make_from_field_inv in H as [_ [[Ht (b & h & -> & ->)] | [Hg H]]].
  - simpl. split; [split|split]; try done. by intros [? _].
  - destruct H as (inst & md & h & d' & HR & _ & ->). simpl.
    split; [split|split].
    + intros [Ho Hn]%andb_prop. split; [by destruct d|].
      exists inst, md. split; [done|]. by destruct (md_is_optional md).
    + intros [-> (inst' & md' & HR' & Ho)]. rewrite HR in HR'.
      injection HR' as -> ->. by rewrite Ho.
    + intros Hd. destruct d; try done; apply andb_false_r.
    + intros inst' md' HR' Ho. rewrite HR in HR'. injection HR' as -> ->.
      by rewrite Ho.
Qed.

Lemma required_iff_no_default_and_not_optional_witness :
  let f := {| dataclasses.name := "x"; dataclasses.type := TOptional TInt;
              dataclasses.init := true |} in
  exists arg,
    make_from_field (fun _ _ => None) instantiators.instantiator_from_type
      "A" f ∅ VNone = Ok arg /\
    ((required arg = true <->
        VNone = VNone /\ exists inst md,
          instantiators.instantiator_from_type (Some (dataclasses.type f)) ∅ = Ok (inst, md) /\
          md_is_optional md = false) /\
     (VNone <> VNone -> required arg = false) /\
     (forall inst md,
        instantiators.instantiator_from_type (Some (dataclasses.type f)) ∅ = Ok (inst, md) ->
        md_is_optional md = true -> required arg = false)).
Proof.
  eexists. split; [lazy; reflexivity|].
  eapply (required_iff_no_default_and_not_optional (fun _ _ => None)
            instantiators.instantiator_from_type "A"
            {| dataclasses.name := "x"; dataclasses.type := TOptional TInt;
               dataclasses.init := true |} ∅ VNone).
  lazy; reflexivity.
Defined.

(** ** The boolean specializer (C8, C7) *)

(** C8. For a definition whose type is [bool], the boolean stage fails the
    assertion "Invalid default" whenever the default is an object other than
    [None], [True] and [False], and it returns a definition, so that the
    assertion is not reached, whenever the default is one of the three. *)
Theorem invalid_default_assertion (arg : ArgumentDefinition) :
  type arg = Some TBool ->
  (default arg <> VNone -> (forall b, default arg <> VBool b) ->
   _transform_handle_boolean_flags arg = Raise (AssertionError "Invalid default")) /\
  (default arg = VNone \/ default arg = VBool true \/ default arg = VBool false ->
   exists arg', _transform_handle_boolean_flags arg = Ok arg').
Proof.
  intros Ht. rewrite boolean_flags_cases, Ht. split.
  - intros Hn Hb. destruct (default arg) as [|b| | | | | | |]; try done.
    by destruct (Hb b).
  - intros [-> | [-> | ->]]; eauto.
Qed.

Lemma invalid_default_assertion_witness :
  let arg := set_default (VInt 0) (flag_definition "A"
               {| dataclasses.name := "x"; dataclasses.type := TBool;
                  dataclasses.init := true |} false EmptyString) in
  let arg := set_type (Some TBool) arg in
  _transform_handle_boolean_flags arg = Raise (AssertionError "Invalid default").
Proof.
  cbv zeta.
  refine (proj1 (invalid_default_assertion _ _) _ _); [reflexivity|discriminate|discriminate].
Defined.

(** C7, as stated, fails: the flag definition of a [bool] field with
    default [False] has no type, but it has an instantiator. *)
Lemma flag_definition_has_instantiator :
  exists arg,
    make_from_field (fun _ _ => None) instantiators.instantiator_from_type "A"
      {| dataclasses.name := "x"; dataclasses.type := TBool; dataclasses.init := true |}
      ∅ (VBool false) = Ok arg /\
    type arg = None /\
    instantiator arg = Some identity_instantiator /\
    instantiator arg <> None.
Proof. eexists. split; [lazy; reflexivity|]. by repeat split. Qed.

(** C7, amended. Whenever the boolean specializer triggers (a [bool] field
    with default [False] or [True]), the type resolver is bypassed: the
    definition is built whatever the resolver is, also when it would fail;
    no type, arity, choices or value hint is attached; the instantiator that
    is attached is the identity, which passes on the boolean supplied by the
    parsing engine. *)
Theorem flag_bypasses_resolver
    (docs : string -> string -> option string)
    (resolver : option PyType -> TypeVarMap -> Py.result (Instantiator * InstantiatorMetadata))
    cls (f : dataclasses.Field) tv (b : bool) :
  dataclasses.init f = true -> dataclasses.type f = TBool ->
  exists arg,
    make_from_field docs resolver cls f tv (VBool b) = Ok arg /\
    (forall resolver', make_from_field docs resolver' cls f tv (VBool b) = Ok arg) /\
    action arg = Some (if b then "store_false" else "store_true") /\
    type arg = None /\ nargs arg = None /\ choices arg = None /\ metavar arg = None /\
    instantiator arg = Some identity_instantiator /\
    (forall v, identity_instantiator v = Ok v).
Proof.
  intros Hi Ht. eexists. split; [by apply make_from_field_flag|].
  split; [intros resolver'; by apply make_from_field_flag|].
  by repeat split.
Qed.

Lemma flag_bypasses_resolver_witness :
  exists arg,
    make_from_field (fun _ _ => None) (fun _ _ => Raise UnsupportedType) "A"
      {| dataclasses.name := "x"; dataclasses.type := TBool; dataclasses.init := true |}
      ∅ (VBool true) = Ok arg /\
    action arg = Some "store_false" /\
    instantiator arg = Some identity_instantiator.
Proof.
  destruct (flag_bypasses_resolver (fun _ _ => None) (fun _ _ => Raise UnsupportedType) "A"
              {| dataclasses.name := "x"; dataclasses.type := TBool;
                 dataclasses.init := true |} ∅ true eq_refl eq_refl)
    as (arg & H & _ & Ha & _ & _ & _ & _ & Hinst & _).
  exists arg. by repeat split.
Defined.

(** ** Keyword arguments handed to the parser *)

Lemma drop_None_cons (k k' : string) (ov : option Attr) items :
  drop_None ((k', ov) :: items) !! k
  = if String.eqb k k' then
      match ov with
      | Some v => Some v
      | None => drop_None items !! k
      end
    else drop_None items !! k.
Proof.
  unfold drop_None. simpl.
  destruct (String.eqb_spec k k') as [->|Hne]; destruct ov; simpl;
    rewrite ?lookup_insert_eq, ?lookup_insert_ne; done.
Qed.

Lemma drop_None_nil (k : string) : drop_None [] !! k = None.
Proof. done. Qed.

Ltac lookup_vars :=
  unfold vars; rewrite !drop_None_cons, ?drop_None_nil; simpl;
  try (by repeat case_match).

Lemma pop_inv key (kwargs kwargs' : gmap string Attr) :
  pop key kwargs = Ok kwargs' -> is_Some (kwargs !! key) /\ kwargs' = delete key kwargs.
Proof. unfold pop. destruct (kwargs !! key); [|done]. intros [= <-]. eauto. Qed.

(** The keyword arguments of a registration, attribute by attribute. *)
Lemma add_argument_kwargs (self : ArgumentDefinition) flag kwargs :
  add_argument self = Ok (flag, kwargs) ->
  flag = get_flag self /\
  kwargs !! "dest" = (fun d => AVal (VStr (prefix self +:+ d))) <$> dest self /\
  kwargs !! "type" = (fun _ => AType TStr) <$> type self /\
  kwargs !! "choices"
    = (fun c => AVal (VList (map (fun x => VStr (Py.str x)) c))) <$> choices self /\
  kwargs !! "default"
    = (if is_None (default self) then None else Some (AVal (default self))) /\
  kwargs !! "required" = Some (AVal (VBool (required self))) /\
  kwargs !! "action" = (fun a => AVal (VStr a)) <$> action self /\
  kwargs !! "nargs" = (fun n => AVal (nargs_val n)) <$> nargs self /\
  kwargs !! "metavar" = (fun m => AVal (metavar_val m)) <$> metavar self /\
  kwargs !! "help" = (fun h => AVal (VStr h)) <$> help self /\
  (forall k, k ∈ ["field"; "parent_class"; "prefix"; "instantiator"; "name"] ->
             kwargs !! k = None).
Proof.
  destruct self as [p fld pc inst nm ty df rq ac na ch mv hp ds].
  unfold add_argument. unfold_bind.
  cbn [prefix dest type choices default required action nargs metavar help].
  set (self := {| prefix := p; field := fld; parent_class := pc; instantiator := inst;
                  name := nm; type := ty; default := df; required := rq; action := ac;
                  nargs := na; choices := ch; metavar := mv; help := hp; dest := ds |}).
  set (K0 := drop_None (vars self)).
  assert (H0 : forall k, K0 !! k = drop_None (vars self) !! k) by done.
  clearbody K0. subst self.
  assert (Hd : K0 !! "dest" = (fun d => AVal (VStr d)) <$> ds)
    by (rewrite H0; lookup_vars).
  rewrite Hd.
  set (K1 := match ds with
             | Some d => <["dest" := AVal (VStr (p +:+ d))]> K0
             | None => K0
             end).
  assert (H1 : match (fun d => AVal (VStr d)) <$> ds with
               | Some (AVal (VStr d)) => Ok (<["dest" := AVal (VStr (p +:+ d))]> K0)
               | Some _ => Raise (TypeError "can only concatenate str")
               | None => Ok K0
               end = Ok K1) by (subst K1; by destruct ds).
  rewrite H1. clear H1.
  assert (Ht : K1 !! "type" = AType <$> ty).
  { subst K1. destruct ds; rewrite ?lookup_insert_ne by done; rewrite H0; lookup_vars. }
  rewrite Ht.
  set (K2 := match ty with Some _ => <["type" := AType TStr]> K1 | None => K1 end).
  assert (H2 : match AType <$> ty with
               | Some _ => <["type" := AType TStr]> K1
               | None => K1
               end = K2) by (subst K2; by destruct ty).
  rewrite H2. clear H2.
  assert (Hc : K2 !! "choices" = (fun c => AVal (VSet c)) <$> ch).
  { subst K2 K1. destruct ty, ds; rewrite ?lookup_insert_ne by done;
      rewrite H0; lookup_vars. }
  rewrite Hc.
  set (K3 := match ch with
             | Some c => <["choices" := AVal (VList (map (fun x => VStr (Py.str x)) c))]> K2
             | None => K2
             end).
  assert (H3 : match (fun c => AVal (VSet c)) <$> ch with
               | Some (AVal c) =>
                   match Py.iter c with
                   | Ok items =>
                       Ok (<["choices" := AVal (VList (map (fun x => VStr (Py.str x)) items))]> K2)
                   | Raise e => Raise e
                   end
               | Some _ => Raise (TypeError "object is not iterable")
               | None => Ok K2
               end = Ok K3) by (subst K3; by destruct ch).
  rewrite H3. clear H3 Hd Ht Hc. intros H.
  repeat (case_result;
          match goal with
          | E : pop _ _ = Ok _ |- _ => apply pop_inv in E as [_ ->]
          end).
  injection H as <- <-. split; [done|].
  rewrite !lookup_delete_ne by done.
  subst K3 K2 K1.
  repeat split;
    try (destruct ch, ty, ds;
         rewrite ?lookup_insert_ne by done; rewrite ?lookup_insert_eq; try done;
         rewrite ?lookup_insert_ne by done; rewrite ?lookup_insert_eq; try done;
         rewrite ?lookup_insert_ne by done; rewrite ?lookup_insert_eq; try done;
         rewrite H0; lookup_vars; done).
  intros k Hk.
  repeat (apply elem_of_cons in Hk as [-> | Hk]);
    [rewrite ?lookup_delete_eq, ?lookup_delete_ne by done; rewrite ?lookup_delete_eq; done ..|].
  by apply elem_of_nil in Hk.
Qed.

Lemma pop_present key (kwargs : gmap string Attr) v :
  kwargs !! key = Some v -> pop key kwargs = Ok (delete key kwargs).
Proof. unfold pop. by intros ->. Qed.

(** A definition that has an instantiator can be registered; one without
    has no [instantiator] entry to pop. *)
Lemma add_argument_total (self : ArgumentDefinition) :
  match instantiator self with
  | Some _ => exists kwargs, add_argument self = Ok (get_flag self, kwargs)
  | None => add_argument self = Raise (KeyError "instantiator")
  end.
Proof.
  destruct self as [p fld pc inst nm ty df rq ac na ch mv hp ds].
  unfold add_argument. unfold_bind.
  cbn [prefix dest type choices default required action nargs metavar help instantiator].
  set (self := {| prefix := p; field := fld; parent_class := pc; instantiator := inst;
                  name := nm; type := ty; default := df; required := rq; action := ac;
                  nargs := na; choices := ch; metavar := mv; help := hp; dest := ds |}).
  set (K0 := drop_None (vars self)).
  assert (H0 : forall k, K0 !! k = drop_None (vars self) !! k) by done.
  clearbody K0. subst self.
  assert (Hd : K0 !! "dest" = (fun d => AVal (VStr d)) <$> ds)
    by (rewrite H0; lookup_vars).
  rewrite Hd.
  set (K1 := match ds with
             | Some d => <["dest" := AVal (VStr (p +:+ d))]> K0
             | None => K0
             end).
  assert (H1 : match (fun d => AVal (VStr d)) <$> ds with
               | Some (AVal (VStr d)) => Ok (<["dest" := AVal (VStr (p +:+ d))]> K0)
               | Some _ => Raise (TypeError "can only concatenate str")
               | None => Ok K0
               end = Ok K1) by (subst K1; by destruct ds).
  rewrite H1. clear H1.
  assert (Ht : K1 !! "type" = AType <$> ty).
  { subst K1. destruct ds; rewrite ?lookup_insert_ne by done; rewrite H0; lookup_vars. }
  rewrite Ht.
  set (K2 := match ty with Some _ => <["type" := AType TStr]> K1 | None => K1 end).
  assert (H2 : match AType <$> ty with
               | Some _ => <["type" := AType TStr]> K1
               | None => K1
               end = K2) by (subst K2; by destruct ty).
  rewrite H2. clear H2.
  assert (Hc : K2 !! "choices" = (fun c => AVal (VSet c)) <$> ch).
  { subst K2 K1. destruct ty, ds; rewrite ?lookup_insert_ne by done;
      rewrite H0; lookup_vars. }
  rewrite Hc.
  set (K3 := match ch with
             | Some c => <["choices" := AVal (VList (map (fun x => VStr (Py.str x)) c))]> K2
             | None => K2
             end).
  assert (H3 : match (fun c => AVal (VSet c)) <$> ch with
               | Some (AVal c) =>
                   match Py.iter c with
                   | Ok items =>
                       Ok (<["choices" := AVal (VList (map (fun x => VStr (Py.str x)) items))]> K2)
                   | Raise e => Raise e
                   end
               | Some _ => Raise (TypeError "object is not iterable")
               | None => Ok K2
               end = Ok K3) by (subst K3; by destruct ch).
  rewrite H3. clear H3 Hd Ht Hc.
  assert (HK : forall k, k ∈ ["field"; "parent_class"; "prefix"; "instantiator"; "name"] ->
                         K3 !! k = drop_None
                           (vars {| prefix := p; field := fld; parent_class := pc;
                                    instantiator := inst; name := nm; type := ty;
                                    default := df; required := rq; action := ac;
                                    nargs := na; choices := ch; metavar := mv;
                                    help := hp; dest := ds |}) !! k).
  { intros k Hk. rewrite <- H0. subst K3 K2 K1.
    repeat (apply elem_of_cons in Hk as [-> | Hk]);
      [destruct ch, ty, ds; rewrite ?lookup_insert_ne by done; done ..|].
    by apply elem_of_nil in Hk. }
  clearbody K3. clear K2 K1 H0.
  erewrite pop_present; [|rewrite HK by set_solver; lookup_vars].
  erewrite pop_present;
    [|rewrite lookup_delete_ne by done; rewrite HK by set_solver; lookup_vars].
  erewrite pop_present;
    [|rewrite !lookup_delete_ne by done; rewrite HK by set_solver; lookup_vars].
  assert (Hi : pop "instantiator" (delete "prefix" (delete "parent_class" (delete "field" K3)))
               = match inst with
                 | Some _ =>
                     Ok (delete "instantiator"
                           (delete "prefix" (delete "parent_class" (delete "field" K3))))
                 | None => Raise (KeyError "instantiator")
                 end).
  { unfold pop. rewrite !lookup_delete_ne by done. rewrite HK by set_solver.
    lookup_vars. }
  rewrite Hi. destruct inst; [|done].
  erewrite pop_present;
    [|rewrite !lookup_delete_ne by done; rewrite HK by set_solver; lookup_vars].
  eauto.
Qed.

(** ** Strings *)

Lemma append_cons (c : ascii) (a b : string) : String c a +:+ b = String c (a +:+ b).
Proof. reflexivity. Qed.

Lemma append_empty (b : string) : EmptyString +:+ b = b.
Proof. reflexivity. Qed.



Lemma hyphenate_cons (c : ascii) (s : string) :
  Py.replace "_" "-" (String c s)
  = String (hyphen_for_underscore c) (Py.replace "_" "-" s).
Proof. unfold hyphen_for_underscore. simpl. by destruct (Ascii.eqb c "_"). Qed.

Lemma hyphenate_cons_plain (c : ascii) (s : string) :
  Ascii.eqb c "_" = false ->
  Py.replace "_" "-" (String c s) = String c (Py.replace "_" "-" s).
Proof. intros H. simpl. by rewrite H. Qed.

Lemma hyphenate_get (s : string) (i : nat) :
  String.get i (Py.replace "_" "-" s) = hyphen_for_underscore <$> String.get i s.
Proof.
  revert i. induction s as [|c s IH]; intros i; [done|].
  rewrite hyphenate_cons. destruct i; simpl; auto.
Qed.

Lemma hyphenate_length (s : string) :
  String.length (Py.replace "_" "-" s) = String.length s.
Proof.
  induction s as [|c s IH]; [done|]. rewrite hyphenate_cons. simpl. by rewrite IH.
Qed.

Lemma hyphenate_no_underscore (s : string) :
  Py.contains "_" (Py.replace "_" "-" s) = false.
Proof.
  induction s as [|c s IH]; [done|]. rewrite hyphenate_cons. simpl. rewrite IH.
  unfold hyphen_for_underscore. by destruct (Ascii.eqb c "_") eqn:E; rewrite ?E.
Qed.

(** Turning the hyphens of a hyphenated text back into underscores gives the
    text, when the text had no hyphen. *)
Lemma unhyphenate_hyphenate (s : string) :
  Py.contains "-" s = false ->
  Py.replace "-" "_" (Py.replace "_" "-" s) = s.
Proof.
  induction s as [|c s IH]; [done|].
  intros H. simpl in H. apply orb_false_elim in H as [Hc Hs].
  rewrite hyphenate_cons. unfold hyphen_for_underscore.
  destruct (Ascii.eqb_spec c "_") as [->|Hne]; simpl; rewrite IH by done; [done|].
  by rewrite Hc.
Qed.

(** The destination that the engine infers from the flag of a plain name is
    the name. *)
Lemma inferred_destination (self : ArgumentDefinition) :
  plain_name (prefix self +:+ name self) = true ->
  argparse.dest_of_flag (get_flag self) = Ok (prefix self +:+ name self).
Proof.
  unfold get_flag, argparse.dest_of_flag.
  destruct (prefix self +:+ name self) as [|c r]; [done|].
  unfold plain_name.
  intros [[Hu Hh]%andb_prop Hr]%andb_prop.
  apply negb_true_iff in Hu, Hh, Hr.
  rewrite hyphenate_cons. unfold hyphen_for_underscore. rewrite Hu.
  rewrite !append_cons, append_empty. simpl. rewrite Hh.
  by rewrite Hh, unhyphenate_hyphenate.
Qed.

(** An underscore at the front of a name is lost in the inferred
    destination. *)
Example inferred_destination_leading_underscore :
  let self := resolved_definition "A"
                {| dataclasses.name := "_x"; dataclasses.type := TInt;
                   dataclasses.init := true |}
                VNone instantiators.from_int
                (instantiators.scalar_metadata "INT" None) EmptyString in
  get_flag self = "---x" /\ argparse.dest_of_flag (get_flag self) = Ok "x".
Proof. by split. Qed.

(** ** Flag spelling and destination key (C6, C3) *)

Lemma bind_Ok_inv {A B} (m : Py.result A) (k : A -> Py.result B) (b : B) :
  m ≫= k = Ok b -> exists a, m = Ok a /\ k a = Ok b.
Proof. unfold_bind. destruct m as [a|e]; [eauto | done]. Qed.

(** The destination of the action that the engine registers: the [dest]
    keyword when there is one, and what the flag gives otherwise. *)
Lemma engine_destination (flag : string) (kwargs : gmap string Attr) (a : argparse.Action) :
  argparse.add_argument flag kwargs = Ok a ->
  argparse.option_string a = flag /\
  exists d,
    argparse.kwarg_str kwargs "dest" = Ok d /\
    match d with
    | Some given => Ok given
    | None => argparse.dest_of_flag flag
    end = Ok (argparse.dest a).
Proof.
  unfold argparse.add_argument. intros H.
  apply bind_Ok_inv in H as (act & _ & H).
  apply bind_Ok_inv in H as (d & Hd & H).
  apply bind_Ok_inv in H as (dst & Hdst & H).
  apply bind_Ok_inv in H as (req & _ & H).
  apply bind_Ok_inv in H as (giv & _ & H).
  assert (argparse.option_string a = flag /\ argparse.dest a = dst) as [Ho Hdest].
  { destruct (_ || _).
    - destruct (argparse.has_any _ _); [done|]. by injection H as <-.
    - destruct (String.eqb _ "store"); [|done].
      apply bind_Ok_inv in H as (u & _ & H).
      apply bind_Ok_inv in H as (n & _ & H).
      apply bind_Ok_inv in H as (c & _ & H). by injection H as <-. }
  split; [done|]. exists d. split; [done|]. by rewrite Hdest.
Qed.

(** C6, as stated, fails: the definition of a field [_x] is registered under
    the flag [---x] without a destination of its own, and the engine's
    destination for it is [x], not the prefixed name [_x]. *)
Lemma leading_underscore_loses_destination :
  let f := {| dataclasses.name := "_x"; dataclasses.type := TInt;
              dataclasses.init := true |} in
  exists arg kwargs a,
    make_from_field (fun _ _ => None) instantiators.instantiator_from_type "A" f ∅ VNone
    = Ok arg /\
    add_argument arg = Ok ("---x", kwargs) /\
    kwargs !! "dest" = None /\
    argparse.add_argument "---x" kwargs = Ok a /\
    argparse.dest a = "x" /\
    prefix arg +:+ name arg = "_x" /\
    argparse.dest a <> prefix arg +:+ name arg.
Proof.
  cbv zeta.
  exists (resolved_definition "A"
            {| dataclasses.name := "_x"; dataclasses.type := TInt;
               dataclasses.init := true |}
            VNone instantiators.from_int (instantiators.scalar_metadata "INT" None)
            EmptyString).
  exists {[ "type" := AType TStr; "required" := AVal (VBool true);
            "metavar" := AVal (VStr "INT"); "help" := AVal (VStr EmptyString) ]}.
  exists {| argparse.option_string := "---x"; argparse.dest := "x";
            argparse.kind := "store"; argparse.nargs := None;
            argparse.default := VNone; argparse.required := true;
            argparse.choices := None |}.
  repeat (split; [vm_compute; reflexivity|]). discriminate.
Qed.

(** C6, amended. For every argument definition the flag is ["--"] followed
    by the prefix and the name in which every underscore reads as a hyphen
    and every other character is kept.  The destination key is not
    hyphenated: for a definition that has a destination of its own (the
    negated flag of a [bool] field with default [True], whose destination is
    the field's name) [add_argument] hands over the prefix followed by it,
    and the engine registers that key; for a definition without one nothing
    is handed over, and the key that the engine infers from the flag is the
    prefix followed by the name whenever that text is a plain name.  A field
    [y] under the prefix ["b."] of its parent [b] is addressed as [--b.y]
    and stored under [b.y]. *)
Theorem flag_and_destination_key (self : ArgumentDefinition) :
  (exists spelled,
     get_flag self = "--" +:+ spelled /\
     String.length spelled = String.length (prefix self +:+ name self) /\
     (forall i, String.get i spelled
                = hyphen_for_underscore <$> String.get i (prefix self +:+ name self)) /\
     Py.contains "_" spelled = false) /\
  (forall flag kwargs,
     add_argument self = Ok (flag, kwargs) ->
     flag = get_flag self /\
     kwargs !! "dest" = (fun d => AVal (VStr (prefix self +:+ d))) <$> dest self /\
     forall a,
       argparse.add_argument flag kwargs = Ok a ->
       argparse.option_string a = get_flag self /\
       (forall d, dest self = Some d -> argparse.dest a = prefix self +:+ d) /\
       (dest self = None -> plain_name (prefix self +:+ name self) = true ->
        argparse.dest a = prefix self +:+ name self)) /\
  (forall docs resolver cls f tv d arg,
     make_from_field docs resolver cls f tv d = Ok arg ->
     self = set_prefix (prefix self) arg ->
     (dest self = Some (dataclasses.name f) /\
      name self = "no_" +:+ dataclasses.name f) \/
     (dest self = None /\ name self = dataclasses.name f)) /\
  (prefix self = "b." -> name self = "y" ->
   get_flag self = "--b.y" /\
   (dest self = None -> argparse.dest_of_flag (get_flag self) = Ok "b.y")).
Proof.
  split; [|split; [|split]].
  - exists (Py.replace "_" "-" (prefix self +:+ name self)).
    split; [done|]. split; [apply hyphenate_length|].
    split; [intros i; apply hyphenate_get | apply hyphenate_no_underscore].
  - intros flag kwargs H.
    apply add_argument_kwargs in H as (-> & Hd & _).
    split; [done|]. split; [done|].
    intros a Ha. apply engine_destination in Ha as (Ho & d & Hk & Hdst).
    split; [done|].
    unfold argparse.kwarg_str in Hk. rewrite Hd in Hk. split.
    + intros g Hg. rewrite Hg in Hk. simpl in Hk. injection Hk as <-.
      by injection Hdst as <-.
    + intros Hn Hp. rewrite Hn in Hk. simpl in Hk. injection Hk as <-.
      rewrite inferred_destination in Hdst by done. by injection Hdst as <-.
  - intros docs resolver cls f tv d arg H ->.
    apply make_from_field_inv in H as [_ [[_ (b & h & _ & ->)] | [_ H]]].
    + destruct b; simpl; auto.
    + destruct H as (inst & md & h & d' & _ & _ & ->). by right.
  - intros Hp Hn. split.
    + unfold get_flag. by rewrite Hp, Hn.
    + intros _. rewrite inferred_destination by (by rewrite Hp, Hn).
      by rewrite Hp, Hn.
Qed.



Lemma insert_existing_key (m : gmap string Attr) (key k : string) (x : Attr) :
  is_Some (m !! key) -> is_Some (<[key := x]> m !! k) -> is_Some (m !! k).
Proof.
  intros Hk. destruct (decide (key = k)) as [->|Hne];
    rewrite ?lookup_insert_eq, ?lookup_insert_ne by done; done.
Qed.

(** Every keyword argument of a registration is an attribute of the
    definition whose value is not [None]. *)
Lemma add_argument_keys (self : ArgumentDefinition) flag kwargs (k : string) :
  add_argument self = Ok (flag, kwargs) ->
  is_Some (kwargs !! k) -> is_Some (drop_None (vars self) !! k).
Proof.
  unfold add_argument. unfold_bind.
  set (K0 := drop_None (vars self)). clearbody K0. intros H Hk.
  assert (exists K1, (forall j, is_Some (K1 !! j) -> is_Some (K0 !! j)) /\
                     match K0 !! "dest" with
                     | Some (AVal (VStr d)) =>
                         Ok (<["dest" := AVal (VStr (prefix self +:+ d))]> K0)
                     | Some _ => Raise (TypeError "can only concatenate str")
                     | None => Ok K0
                     end = Ok K1) as (K1 & H1 & E1).
  { destruct (K0 !! "dest") as [[[]| | |]|] eqn:Ed; try discriminate H;
      eexists; (split; [|reflexivity]); [|done].
    intros j. apply insert_existing_key. by rewrite Ed. }
  rewrite E1 in H. clear E1.
  set (K2 := match K1 !! "type" with
             | Some _ => <["type" := AType TStr]> K1
             | None => K1
             end) in H.
  assert (H2 : forall j, is_Some (K2 !! j) -> is_Some (K0 !! j)).
  { intros j Hj. apply H1. subst K2. destruct (K1 !! "type") eqn:Et; [|done].
    eapply insert_existing_key; [|done]. by rewrite Et. }
  clearbody K2.
  assert (exists K3, (forall j, is_Some (K3 !! j) -> is_Some (K0 !! j)) /\
                     match K2 !! "choices" with
                     | Some (AVal c) =>
                         match Py.iter c with
                         | Ok items =>
                             Ok (<["choices" :=
                                     AVal (VList (map (fun x => VStr (Py.str x)) items))]> K2)
                         | Raise e => Raise e
                         end
                     | Some _ => Raise (TypeError "object is not iterable")
                     | None => Ok K2
                     end = Ok K3) as (K3 & H3 & E3).
  { destruct (K2 !! "choices") as [[c| | |]|] eqn:Ec; try discriminate H;
      [|by eexists].
    destruct (Py.iter c); [|discriminate H].
    eexists; split; [|reflexivity]. intros j Hj. apply H2.
    eapply insert_existing_key; [|done]. by rewrite Ec. }
  rewrite E3 in H. clear E3.
  repeat (case_result;
          match goal with
          | E : pop _ _ = Ok _ |- _ => apply pop_inv in E as [_ ->]
          end).
  injection H as _ <-. apply H3. destruct Hk as [v Hv].
  repeat apply lookup_delete_Some in Hv as [_ Hv]. eauto.
Qed.

(** ** An absent default (C9) *)

(** C9. A default of [None] is treated as no default: the first stage marks
    the definition required; for the definition that [make_from_field]
    returns, [required] is cleared exactly when the resolver reports the
    type as optional, and the default stays [None]; and [add_argument]
    hands over no [default], as it hands over no attribute that is [None]:
    every keyword argument it passes is an attribute with a value. *)
Theorem none_default_is_no_default
    (docs : string -> string -> option string)
    (resolver : option PyType -> TypeVarMap -> Py.result (Instantiator * InstantiatorMetadata))
    cls (f : dataclasses.Field) tv arg :
  make_from_field docs resolver cls f tv VNone = Ok arg ->
  (forall a, default a = VNone ->
             required (_transform_required_if_default_set a) = true) /\
  default arg = VNone /\
  (exists inst md,
     resolver (Some (dataclasses.type f)) tv = Ok (inst, md) /\
     required arg = negb (md_is_optional md)) /\
  (forall flag kwargs,
     add_argument arg = Ok (flag, kwargs) ->
     kwargs !! "default" = None /\
     forall k v, kwargs !! k = Some v ->
                 exists attr, (k, Some attr) ∈ vars arg) .
Proof.
  intros H. split.
  { intros a Ha. unfold _transform_required_if_default_set. by rewrite Ha. }
  apply make_from_field_inv in H as [_ [[_ (b & h & [=] & _)] | [_ H]]].
  destruct H as (inst & md & h & d' & HR & Hc & _).
  unfold _transform_convert_defaults_to_strings in Hc. simpl in Hc.
  injection Hc as <-. split; [done|]. split.
  { exists inst, md. split; [done|]. simpl. apply andb_true_r. }
  intros flag kwargs Hk. split.
  { apply add_argument_kwargs in Hk. by destruct Hk as (_ & _ & _ & _ & -> & _). }
  intros k v Hv.
  assert (Hin : is_Some (drop_None (vars (resolved_definition cls f VNone inst md h)) !! k))
    by (eapply add_argument_keys; eauto).
  destruct Hin as [attr Hattr]. unfold drop_None in Hattr.
  apply elem_of_list_to_map_2 in Hattr.
  apply list_elem_of_omap in Hattr as ([k' [a|]] & Hin & Heq); simpl in Heq; [|done].
  injection Heq as <- <-. eauto.
Qed.

Lemma none_default_is_no_default_witness :
  exists arg,
    make_from_field (fun _ _ => None) instantiators.instantiator_from_type "A"
      {| dataclasses.name := "x"; dataclasses.type := TInt; dataclasses.init := true |}
      ∅ VNone = Ok arg /\
    default arg = VNone /\
    required arg = true.
Proof.
  eexists. split; [lazy; reflexivity|].
  split; [|reflexivity].
  refine (proj1 (proj2 (none_default_is_no_default (fun _ _ => None)
                          instantiators.instantiator_from_type "A"
                          {| dataclasses.name := "x"; dataclasses.type := TInt;
                             dataclasses.init := true |} ∅ _ _))).
  lazy; reflexivity.
Defined.

(** ** What the parser is given (C10) *)




(** ** Default rendering (C5) *)

(** C5, as stated, fails: the default of a variadic field is rendered as the
    tuple of its elements' strings, one per element, neither quoted nor
    joined; the shell-quoted, space-joined text is what the help stage
    writes. *)
Lemma container_default_is_a_tuple_of_tokens :
  let given :=
    resolved_definition "A"
      {| dataclasses.name := "x"; dataclasses.type := TSeq false TStr;
         dataclasses.init := true |}
      (VList [VStr "a b"; VStr "c"]) (instantiators.from_seq false instantiators.from_str)
      {| md_nargs := Some (NargsStr "+"); md_metavar := None; md_choices := None;
         md_is_optional := false |} EmptyString in
  exists noted rendered,
    _transform_generate_helptext (fun _ _ => None) given = Ok noted /\
    help noted = Some "(default: 'a b' c)" /\
    _transform_convert_defaults_to_strings noted = Ok rendered /\
    default rendered = VTuple [VStr "a b"; VStr "c"] /\
    default rendered <> VStr "'a b' c".
Proof. do 2 eexists. by repeat split. Qed.

Lemma iter_Ok_has_iter (v : Py.Val) items :
  Py.iter v = Ok items -> has_iter v = true.
Proof. by destruct v. Qed.

(** C5, amended. The default-rendering stage leaves a default alone when it
    is [None] or the definition is a flag; otherwise it renders a scalar
    default that is an enum member as the member's name and any other scalar
    default by [str], and it renders the default of a definition with an
    arity as a tuple with one string per element of the default, each
    element rendered the same way, not quoted and not joined.  The
    shell-quoted, space-joined rendering of the elements is the default note
    that the help stage appends for such a definition. *)
Theorem default_rendering (arg : ArgumentDefinition) :
  (is_None (default arg) = true \/ action arg <> None ->
   _transform_convert_defaults_to_strings arg = Ok arg) /\
  (forall cls n x,
     action arg = None -> nargs arg = None -> default arg = VEnum cls n x ->
     _transform_convert_defaults_to_strings arg = Ok (set_default (VStr n) arg)) /\
  (action arg = None -> nargs arg = None ->
   is_None (default arg) = false -> is_Enum (default arg) = false ->
   _transform_convert_defaults_to_strings arg
   = Ok (set_default (VStr (Py.str (default arg))) arg)) /\
  (forall items,
     action arg = None -> nargs arg <> None -> Py.iter (default arg) = Ok items ->
     exists tokens,
       _transform_convert_defaults_to_strings arg
       = Ok (set_default (VTuple (VStr <$> tokens)) arg) /\
       length tokens = length items /\
       (forall i x, items !! i = Some x ->
                    tokens !! i = Some (if is_Enum x then enum_name x else Py.str x)) /\
       (forall docs,
          required arg = false -> is_Enum (default arg) = false ->
          exists documented,
            _transform_generate_helptext docs arg
            = Ok (set_help
                    (Some (Py.join " "
                             (documented ++
                              [default_note
                                 (Py.join " " (Py.shlex_quote <$> (Py.str <$> items)))])))
                    arg))).
Proof.
  unfold _transform_convert_defaults_to_strings.
  split; [|split; [|split]].
  - intros [-> | Ha]; [done|]. destruct (action arg); [|done]. by rewrite orb_true_r.
  - intros cls n x -> -> ->. done.
  - intros -> -> -> He. simpl. unfold as_str. by rewrite He.
  - intros items Ha Hn Hi. rewrite Ha.
    assert (is_None (default arg) = false) as -> by (by destruct (default arg)).
    destruct (nargs arg) eqn:En; [|done]. simpl. unfold_bind. rewrite Hi.
    exists (as_str <$> items). split.
    { do 3 f_equal. by rewrite <- list_fmap_compose. }
    split; [by rewrite length_fmap|]. split.
    { intros i x Hx. by rewrite list_lookup_fmap, Hx. }
    intros docs Hr He. unfold _transform_generate_helptext. unfold_bind.
    rewrite Ha, He, Hr, En, (iter_Ok_has_iter _ _ Hi), Hi, andb_false_r. simpl.
    eexists. reflexivity.
Qed.

(** ** Registration with the engine *)



(** ** The engine on a single action *)

Lemma flag_is_flag (s : string) : argparse.is_flag ("--" +:+ s) = true.
Proof. reflexivity. Qed.




(** * Further properties of the pipeline *)

(** ** How [make_from_field] fails *)

Lemma make_from_field_generic_convert
    (docs : string -> string -> option string)
    (resolver : option PyType -> TypeVarMap -> Py.result (Instantiator * InstantiatorMetadata))
    cls (f : dataclasses.Field) tv d inst md :
  dataclasses.init f = true ->
  dataclasses.type f <> TBool \/ d = VNone ->
  resolver (Some (dataclasses.type f)) tv = Ok (inst, md) ->
  exists h,
    _transform_generate_helptext docs (resolved_definition cls f d inst md EmptyString)
    = Ok (resolved_definition cls f d inst md h) /\
    make_from_field docs resolver cls f tv d
    = _transform_convert_defaults_to_strings (resolved_definition cls f d inst md h).
Proof.
  intros Hi Hg HR. rewrite make_from_field_generic, HR by done.
  destruct (helptext_total docs (resolved_definition cls f d inst md EmptyString))
    as [h Hh]; [by left|].
  exists h. by rewrite Hh.
Qed.

Lemma field_cases (f : dataclasses.Field) (d : Py.Val) :
  (dataclasses.type f = TBool /\ exists b, d = VBool b) \/
  (dataclasses.type f = TBool /\ is_None d = false /\ forall b, d <> VBool b) \/
  (dataclasses.type f <> TBool \/ d = VNone).
Proof.
  destruct (dataclasses.type f); try (right; right; left; discriminate).
  destruct d; eauto; right; left; repeat split; discriminate.
Qed.

(** X1. [make_from_field] fails in exactly four ways: the field is outside
    the constructor; a [bool] field has a default other than [None], [True]
    and [False]; the resolver fails on the type of a field that is no
    boolean flag, and its exception is passed on; or a default that is not
    [None] cannot be iterated although the resolved type has an arity.  The
    help stage never fails inside the pipeline. *)
Theorem make_from_field_failures
    (docs : string -> string -> option string)
    (resolver : option PyType -> TypeVarMap -> Py.result (Instantiator * InstantiatorMetadata))
    cls (f : dataclasses.Field) tv d e :
  make_from_field docs resolver cls f tv d = Raise e <->
  (dataclasses.init f = false /\
   e = AssertionError "Field must be in class constructor") \/
  (dataclasses.init f = true /\ dataclasses.type f = TBool /\
   d <> VNone /\ (forall b, d <> VBool b) /\
   e = AssertionError "Invalid default") \/
  (dataclasses.init f = true /\ (dataclasses.type f <> TBool \/ d = VNone) /\
   resolver (Some (dataclasses.type f)) tv = Raise e) \/
  (dataclasses.init f = true /\ (dataclasses.type f <> TBool \/ d = VNone) /\
   d <> VNone /\
   exists inst md,
     resolver (Some (dataclasses.type f)) tv = Ok (inst, md) /\
     md_nargs md <> None /\ Py.iter d = Raise e).
Proof.
  split.
  - intros H. destruct (dataclasses.init f) eqn:Hi.
    2:{ left. rewrite make_from_field_not_init in H by done. by injection H as <-. }
    right. destruct (field_cases f d) as [[Ht [b ->]] | [[Ht [Hn Hb]] | Hg]].
    + by rewrite make_from_field_flag in H.
    + left. rewrite make_from_field_invalid_default in H by done.
      injection H as <-. repeat split; try done. by intros ->.
    + right. destruct (resolver (Some (dataclasses.type f)) tv) as [[inst md]|e'] eqn:HR.
      2:{ left. rewrite make_from_field_generic, HR in H by done.
          injection H as <-. by repeat split. }
      right. destruct (make_from_field_generic_convert docs resolver cls f tv d inst md)
        as (h & _ & Hm); try done.
      rewrite Hm in H. unfold _transform_convert_defaults_to_strings in H.
      simpl in H. rewrite orb_false_r in H.
      destruct (is_None d) eqn:Hn; [done|].
      destruct (md_nargs md) eqn:En; [|done]. simpl in H. unfold_bind.
      destruct (Py.iter d) eqn:Ei; [done|]. injection H as <-.
      repeat split; try done; [by intros -> |].
      exists inst, md. repeat split; try done. by rewrite En.
  - intros [[Hi ->] | [(Hi & Ht & Hn & Hb & ->) | [(Hi & Hg & HR) | (Hi & Hg & Hn & H)]]].
    + by apply make_from_field_not_init.
    + apply make_from_field_invalid_default; try done. by destruct d.
    + by rewrite make_from_field_generic, HR.
    + destruct H as (inst & md & HR & Hna & Hit).
      destruct (make_from_field_generic_convert docs resolver cls f tv d inst md)
        as (h & _ & ->); try done.
      unfold _transform_convert_defaults_to_strings. simpl.
      assert (is_None d = false) as -> by (by destruct d).
      destruct (md_nargs md); [|done]. simpl. unfold_bind. by rewrite Hit.
Qed.

(** ** Registration *)

(** X2. A definition without instantiator is not registered: whatever its
    other attributes, [add_argument] raises the [KeyError] of the missing
    [instantiator] entry when it pops it, before the parser is called.  For
    a definition with an instantiator every step before that call succeeds,
    and the outcome of the registration is the outcome of the parser's call
    with the definition's flag. *)
Theorem add_argument_without_instantiator (self : ArgumentDefinition) :
  (instantiator self = None ->
   add_argument self = Raise (KeyError "instantiator") /\
   parsers.register self = Raise (KeyError "instantiator")) /\
  (instantiator self <> None ->
   exists kwargs,
     add_argument self = Ok (get_flag self, kwargs) /\
     parsers.register self = argparse.add_argument (get_flag self) kwargs).
Proof.
  pose proof (add_argument_total self) as H. unfold parsers.register.
  destruct (instantiator self) as [i|]; split; try done.
  - intros _. destruct H as [kwargs H]. exists kwargs. by rewrite H.
  - intros _. by rewrite H.
Qed.



(** ** The keyword arguments *)

(** X4. The keyword arguments that [add_argument] passes to the parser are
    among the nine parameters [type], [default], [required], [action],
    [nargs], [choices], [metavar], [help] and [dest] of the parser's
    [add_argument]; [required] is always passed, and the five attributes
    [field], [parent_class], [prefix], [instantiator] and [name] never
    are. *)
Theorem kwargs_are_parser_parameters (self : ArgumentDefinition) flag kwargs :
  add_argument self = Ok (flag, kwargs) ->
  (forall k, is_Some (kwargs !! k) ->
             k ∈ ["type"; "default"; "required"; "action"; "nargs"; "choices";
                  "metavar"; "help"; "dest"]) /\
  kwargs !! "required" = Some (AVal (VBool (required self))) /\
  (forall k, k ∈ ["field"; "parent_class"; "prefix"; "instantiator"; "name"] ->
             kwargs !! k = None).
Proof.
  intros H. pose proof (add_argument_kwargs _ _ _ H)
    as (_ & _ & _ & _ & _ & Hr & _ & _ & _ & _ & Hpop).
  split; [|by split].
  intros k Hk.
  pose proof (add_argument_keys _ _ _ k H Hk) as [v Hv].
  unfold drop_None in Hv. apply elem_of_list_to_map_2 in Hv.
  apply list_elem_of_omap in Hv as ([k' o] & Hin & Heq).
  destruct o as [a|]; simpl in Heq; [|done]. injection Heq as -> _.
  assert (Hkeys : k ∈ (vars self).*1) by (apply list_elem_of_fmap; by exists (k, Some a)).
  unfold vars in Hkeys. simpl in Hkeys.
  assert (Hnot : forall j, j ∈ ["field"; "parent_class"; "prefix"; "instantiator"; "name"] ->
                           k <> j).
  { intros j Hj ->. rewrite (Hpop _ Hj) in Hk. by destruct Hk. }
  repeat (apply elem_of_cons in Hkeys as [-> | Hkeys];
          [first [ by repeat constructor
                 | exfalso; eapply Hnot; [|reflexivity]; by repeat constructor ] |]).
  by apply elem_of_nil in Hkeys.
Qed.

Lemma kwargs_are_parser_parameters_witness :
  exists kwargs,
    add_argument
      (flag_definition "A"
         {| dataclasses.name := "x"; dataclasses.type := TBool; dataclasses.init := true |}
         true EmptyString)
    = Ok ("--no-x", kwargs) /\
    kwargs !! "required" = Some (AVal (VBool false)) /\
    kwargs !! "name" = None.
Proof.
  exists {[ "default" := AVal (VBool true); "required" := AVal (VBool false);
            "action" := AVal (VStr "store_false"); "help" := AVal (VStr EmptyString);
            "dest" := AVal (VStr "x") ]}.
  assert (H : add_argument
                (flag_definition "A"
                   {| dataclasses.name := "x"; dataclasses.type := TBool;
                      dataclasses.init := true |} true EmptyString)
              = Ok ("--no-x",
                    {[ "default" := AVal (VBool true); "required" := AVal (VBool false);
                       "action" := AVal (VStr "store_false");
                       "help" := AVal (VStr EmptyString);
                       "dest" := AVal (VStr "x") ]}))
    by (vm_compute; reflexivity).
  split; [exact H|].
  destruct (kwargs_are_parser_parameters _ _ _ H) as (_ & Hr & Hp).
  split; [exact Hr|]. apply Hp. by repeat constructor.
Defined.

(** ** Invariants of the definitions the pipeline returns *)

(** X5. A definition that [make_from_field] returns never has both choices
    and a value hint: whatever the resolver reports, [metavar] is dropped
    when [choices] is set. *)
Theorem choices_exclude_metavar
    (docs : string -> string -> option string)
    (resolver : option PyType -> TypeVarMap -> Py.result (Instantiator * InstantiatorMetadata))
    cls (f : dataclasses.Field) tv d arg :
  make_from_field docs resolver cls f tv d = Ok arg ->
  choices arg = None \/ metavar arg = None.
Proof.
  intros H. apply make_from_field_inv in H as [_ [[_ (b & h & _ & ->)] | [_ H]]].
  - by left.
  - destruct H as (inst & md & h & d' & _ & _ & ->). simpl.
    destruct (md_choices md); auto.
Qed.

Lemma choices_exclude_metavar_witness :
  let md := {| md_nargs := None; md_metavar := Some (MetavarStr "X");
               md_choices := Some [VStr "a"]; md_is_optional := false |} in
  let f := {| dataclasses.name := "x"; dataclasses.type := TStr;
              dataclasses.init := true |} in
  let arg := resolved_definition "A" f VNone identity_instantiator md EmptyString in
  make_from_field (fun _ _ => None) (fun _ _ => Ok (identity_instantiator, md)) "A" f ∅ VNone
  = Ok arg /\
  choices arg = Some [VStr "a"] /\
  (choices arg = None \/ metavar arg = None).
Proof.
  cbv zeta.
  assert (H : make_from_field (fun _ _ => None)
                (fun _ _ =>
                   Ok (identity_instantiator,
                       {| md_nargs := None; md_metavar := Some (MetavarStr "X");
                          md_choices := Some [VStr "a"]; md_is_optional := false |}))
                "A"
                {| dataclasses.name := "x"; dataclasses.type := TStr;
                   dataclasses.init := true |} ∅ VNone
              = Ok (resolved_definition "A"
                      {| dataclasses.name := "x"; dataclasses.type := TStr;
                         dataclasses.init := true |} VNone identity_instantiator
                      {| md_nargs := None; md_metavar := Some (MetavarStr "X");
                         md_choices := Some [VStr "a"]; md_is_optional := false |}
                      EmptyString))
    by (vm_compute; reflexivity).
  split; [exact H|]. split; [reflexivity|].
  exact (choices_exclude_metavar _ _ _ _ _ _ _ H).
Defined.

(** X6. The default of a definition that [make_from_field] returns is
    [None], or the boolean of a flag, or a string when the definition has no
    arity, or a tuple of strings when it has one: no other value reaches
    the parser or the instantiator as a default. *)
Theorem pipeline_default_is_rendered
    (docs : string -> string -> option string)
    (resolver : option PyType -> TypeVarMap -> Py.result (Instantiator * InstantiatorMetadata))
    cls (f : dataclasses.Field) tv d arg :
  make_from_field docs resolver cls f tv d = Ok arg ->
  (default arg = VNone /\ d = VNone) \/
  (exists b, default arg = VBool b /\ d = VBool b /\ action arg <> None) \/
  (exists s, default arg = VStr s /\ action arg = None /\ nargs arg = None) \/
  (exists tokens items,
     default arg = VTuple (VStr <$> tokens) /\ action arg = None /\ nargs arg <> None /\
     Py.iter d = Ok items /\ length tokens = length items).
Proof.
  intros H. apply make_from_field_inv in H as [_ [[_ (b & h & -> & ->)] | [_ H]]].
  - right. left. by exists b.
  - destruct H as (inst & md & h & d' & _ & Hc & _).
    unfold _transform_convert_defaults_to_strings in Hc. simpl in Hc.
    rewrite orb_false_r in Hc. destruct (is_None d) eqn:Hn.
    { injection Hc as <-. left. by destruct d. }
    right. right. destruct (md_nargs md) eqn:En; simpl in Hc.
    + right. unfold_bind. destruct (Py.iter d) as [items|] eqn:Ei; [|done].
      injection Hc as <-. exists (as_str <$> items), items. simpl.
      rewrite En, length_fmap, <- list_fmap_compose. by repeat split.
    + left. injection Hc as <-. eexists. by repeat split.
Qed.

Lemma pipeline_default_is_rendered_witness :
  let f := {| dataclasses.name := "x"; dataclasses.type := TSeq false TInt;
              dataclasses.init := true |} in
  exists arg,
    make_from_field (fun _ _ => None) instantiators.instantiator_from_type "A" f
      ∅ (VList [VInt 1; VInt 2]) = Ok arg /\
    default arg = VTuple [VStr "1"; VStr "2"] /\
    ((default arg = VNone /\ VList [VInt 1; VInt 2] = VNone) \/
     (exists b, default arg = VBool b /\ VList [VInt 1; VInt 2] = VBool b /\
                action arg <> None) \/
     (exists s, default arg = VStr s /\ action arg = None /\ nargs arg = None) \/
     (exists tokens items,
        default arg = VTuple (VStr <$> tokens) /\ action arg = None /\
        nargs arg <> None /\
        Py.iter (VList [VInt 1; VInt 2]) = Ok items /\ length tokens = length items)).
Proof.
  cbv zeta.
  pose (inst := instantiators.from_seq false instantiators.from_int).
  pose (md := {| md_nargs := Some (NargsStr "+"); md_metavar := Some (MetavarStr "INT");
                 md_choices := None; md_is_optional := false |}).
  pose (f := {| dataclasses.name := "x"; dataclasses.type := TSeq false TInt;
                dataclasses.init := true |}).
  assert (H : make_from_field (fun _ _ => None) instantiators.instantiator_from_type "A" f
                ∅ (VList [VInt 1; VInt 2])
              = Ok (set_default (VTuple [VStr "1"; VStr "2"])
                      (resolved_definition "A" f (VList [VInt 1; VInt 2]) inst md
                         "(default: 1 2)")))
    by (vm_compute; reflexivity).
  eexists. split; [exact H|]. split; [reflexivity|].
  exact (pipeline_default_is_rendered _ _ _ _ _ _ _ H).
Defined.

(** X7. Rendering a default is idempotent: the stage returns a rendered
    definition unchanged, so a default handed on as a string or a tuple of
    strings stays what it is. *)
Theorem default_rendering_idempotent (arg arg' : ArgumentDefinition) :
  _transform_convert_defaults_to_strings arg = Ok arg' ->
  _transform_convert_defaults_to_strings arg' = Ok arg'.
Proof.
  unfold _transform_convert_defaults_to_strings. unfold_bind.
  destruct (is_None (default arg) || not_None (action arg)) eqn:E.
  { intros [= <-]. by rewrite E. }
  apply orb_false_elim in E as [_ Ea].
  destruct (not_None (nargs arg)) eqn:En.
  - destruct (Py.iter (default arg)) as [items|]; [|done]. intros [= <-].
    simpl. rewrite Ea, En. simpl.
    by rewrite <- list_fmap_compose.
  - intros [= <-]. simpl. rewrite Ea, En. by destruct arg.
Qed.

Lemma default_rendering_idempotent_witness :
  let f := {| dataclasses.name := "x"; dataclasses.type := TInt; dataclasses.init := true |} in
  let given := resolved_definition "A" f (VInt 5) instantiators.from_int
                 (instantiators.scalar_metadata "INT" None) EmptyString in
  _transform_convert_defaults_to_strings given = Ok (set_default (VStr "5") given) /\
  _transform_convert_defaults_to_strings (set_default (VStr "5") given)
  = Ok (set_default (VStr "5") given).
Proof.
  cbv zeta.
  assert (H : _transform_convert_defaults_to_strings
                (resolved_definition "A"
                   {| dataclasses.name := "x"; dataclasses.type := TInt;
                      dataclasses.init := true |} (VInt 5) instantiators.from_int
                   (instantiators.scalar_metadata "INT" None) EmptyString)
              = Ok (set_default (VStr "5")
                      (resolved_definition "A"
                         {| dataclasses.name := "x"; dataclasses.type := TInt;
                            dataclasses.init := true |} (VInt 5) instantiators.from_int
                         (instantiators.scalar_metadata "INT" None) EmptyString)))
    by reflexivity.
  split; [exact H|]. exact (default_rendering_idempotent _ _ H).
Defined.

Lemma chars_rendered (s : string) :
  map (fun x => VStr (as_str x)) (Py.chars s) = Py.chars s.
Proof. induction s as [|c s IH]; [done|]. simpl. by f_equal. Qed.

Lemma chars_length (s : string) : length (Py.chars s) = String.length s.
Proof. induction s as [|c s IH]; [done|]. simpl. by rewrite IH. Qed.

(** X8. Two edges of rendering a default for a definition with an arity: a
    default that is a string is taken apart into its characters, one token
    per character; a default that is not [None] and cannot be iterated (an
    [int], a [bool], an enum member) raises a [TypeError]. *)
Theorem arity_default_edges (arg : ArgumentDefinition) :
  action arg = None -> nargs arg <> None ->
  (forall s,
     default arg = VStr s ->
     _transform_convert_defaults_to_strings arg
     = Ok (set_default (VTuple (Py.chars s)) arg) /\
     length (Py.chars s) = String.length s) /\
  (is_None (default arg) = false -> has_iter (default arg) = false ->
   _transform_convert_defaults_to_strings arg
   = Raise (TypeError "object is not iterable")).
Proof.
  intros Ha Hn. unfold _transform_convert_defaults_to_strings. rewrite Ha.
  destruct (nargs arg); [|done]. simpl. split.
  - intros s ->. simpl. unfold_bind. rewrite chars_rendered. split; [done|].
    apply chars_length.
  - intros -> Hi. simpl. by destruct (default arg).
Qed.

Lemma arity_default_edges_witness :
  let f := {| dataclasses.name := "x"; dataclasses.type := TSeq false TStr;
              dataclasses.init := true |} in
  let md := {| md_nargs := Some (NargsStr "+"); md_metavar := None; md_choices := None;
               md_is_optional := false |} in
  let given d := resolved_definition "A" f d
                   (instantiators.from_seq false instantiators.from_str) md EmptyString in
  _transform_convert_defaults_to_strings (given (VStr "ab"))
  = Ok (set_default (VTuple [VStr "a"; VStr "b"]) (given (VStr "ab"))) /\
  _transform_convert_defaults_to_strings (given (VInt 5))
  = Raise (TypeError "object is not iterable").
Proof.
  cbv zeta.
  pose (given := fun d =>
          resolved_definition "A"
            {| dataclasses.name := "x"; dataclasses.type := TSeq false TStr;
               dataclasses.init := true |} d
            (instantiators.from_seq false instantiators.from_str)
            {| md_nargs := Some (NargsStr "+"); md_metavar := None; md_choices := None;
               md_is_optional := false |} EmptyString).
  assert (Hn : forall d, nargs (given d) <> None) by (intros d; discriminate).
  split.
  - exact (proj1 (proj1 (arity_default_edges (given (VStr "ab")) eq_refl (Hn _))
                    "ab" eq_refl)).
  - exact (proj2 (arity_default_edges (given (VInt 5)) eq_refl (Hn _)) eq_refl eq_refl).
Defined.

(** X9. The documentation lookup decides nothing but the help text: with
    another lookup [make_from_field] succeeds on the same fields and returns
    the same definition up to [help]. *)
Theorem docstring_only_affects_help
    (docs docs' : string -> string -> option string)
    (resolver : option PyType -> TypeVarMap -> Py.result (Instantiator * InstantiatorMetadata))
    cls (f : dataclasses.Field) tv d arg :
  make_from_field docs resolver cls f tv d = Ok arg ->
  exists arg',
    make_from_field docs' resolver cls f tv d = Ok arg' /\
    arg' = set_help (help arg') arg.
Proof.
  intros H. pose proof H as H0.
  apply make_from_field_inv in H as [Hi [[Ht (b & h & -> & ->)] | [Hg H]]].
  - eexists. split; [by apply make_from_field_flag|]. done.
  - destruct H as (inst & md & h & d' & HR & Hc & ->).
    destruct (make_from_field_generic_convert docs' resolver cls f tv d inst md)
      as (h' & _ & Hm); try done.
    rewrite Hm. clear Hm H0.
    revert Hc. unfold _transform_convert_defaults_to_strings. simpl.
    destruct (is_None d || false).
    { intros [= E]. eexists. split; [done|]. simpl. by rewrite <- E. }
    destruct (not_None (md_nargs md)); unfold_bind.
    + destruct (Py.iter d); [|done]. intros [= E]. eexists. split; [done|].
      simpl. by rewrite <- E.
    + intros [= E]. eexists. split; [done|]. simpl. by rewrite <- E.
Qed.

Lemma docstring_only_affects_help_witness :
  let f := {| dataclasses.name := "x"; dataclasses.type := TInt; dataclasses.init := true |} in
  let arg := set_default (VStr "5")
               (resolved_definition "A" f (VInt 5) instantiators.from_int
                  (instantiators.scalar_metadata "INT" None) "(default: 5)") in
  exists arg',
    make_from_field (fun _ _ => Some "Number of steps.")
      instantiators.instantiator_from_type "A" f ∅ (VInt 5) = Ok arg' /\
    arg' = set_help (help arg') arg.
Proof.
  cbv zeta.
  refine (docstring_only_affects_help (fun _ _ => None) (fun _ _ => Some "Number of steps.")
            instantiators.instantiator_from_type "A"
            {| dataclasses.name := "x"; dataclasses.type := TInt; dataclasses.init := true |}
            ∅ (VInt 5) _ _).
  vm_compute; reflexivity.
Defined.

(** ** The help text *)

(** X10. The help text of a definition that [make_from_field] returns is
    the field's documentation, its percent signs doubled, followed by a note
    on the default: no note for a boolean flag and none for a required
    field; the member's name for an enum default; and for any other field
    without arity the shell-quoted [str] of the default, which reads
    [(default: None)] for an optional field without default. *)
Theorem help_text_of_pipeline_definitions
    (docs : string -> string -> option string)
    (resolver : option PyType -> TypeVarMap -> Py.result (Instantiator * InstantiatorMetadata))
    cls (f : dataclasses.Field) tv d arg :
  make_from_field docs resolver cls f tv d = Ok arg ->
  let documented :=
    match docs cls (dataclasses.name f) with
    | Some s => [Py.replace "%" "%%" s]
    | None => []
    end in
  (action arg <> None \/ required arg = true ->
   help arg = Some (Py.join " " documented)) /\
  (forall c n x,
     d = VEnum c n x ->
     help arg = Some (Py.join " " (documented ++ [default_note n]))) /\
  (action arg = None -> required arg = false -> is_Enum d = false -> nargs arg = None ->
   help arg
   = Some (Py.join " " (documented ++ [default_note (Py.shlex_quote (Py.str d))]))).
Proof.
  intros H documented.
  destruct (dataclasses.init f) eqn:Hi;
    [|by rewrite make_from_field_not_init in H].
  destruct (field_cases f d) as [[Ht [b ->]] | [[Ht [Hn Hb]] | Hg]].
  { rewrite make_from_field_flag in H by done. injection H as <-.
    split; [done|]. split; [done|]. by destruct b. }
  { by rewrite make_from_field_invalid_default in H. }
  destruct (resolver (Some (dataclasses.type f)) tv) as [[inst md]|e] eqn:HR;
    [|by rewrite make_from_field_generic, HR in H].
  destruct (make_from_field_generic_convert docs resolver cls f tv d inst md)
    as (h & Hh & Hm); try done.
  rewrite Hm in H. apply convert_shape in H as [d' ->]. clear Hm.
  revert Hh. unfold _transform_generate_helptext. unfold_bind.
  unfold resolved_definition, set_help. simpl. fold documented. intros Hh.
  split; [|split].
  - intros [Ha | Hr]; [done|]. rewrite Hr in Hh. simpl in Hh.
    apply andb_prop in Hr as [_ Hn]. rewrite Hn in Hh. simpl in Hh.
    by injection Hh as <-.
  - intros c n x ->. simpl in Hh. by injection Hh as <-.
  - intros _ Hr He Hn. rewrite He, Hr, Hn, andb_false_r in Hh. simpl in Hh.
    by injection Hh as <-.
Qed.

Lemma help_text_of_pipeline_definitions_witness :
  let f := {| dataclasses.name := "x"; dataclasses.type := TOptional TInt;
              dataclasses.init := true |} in
  exists arg,
    make_from_field (fun _ _ => Some "Steps, in % of the total.")
      instantiators.instantiator_from_type "A" f ∅ VNone = Ok arg /\
    help arg = Some "Steps, in %% of the total. (default: None)".
Proof.
  cbv zeta.
  pose (f := {| dataclasses.name := "x"; dataclasses.type := TOptional TInt;
                dataclasses.init := true |}).
  pose (arg := resolved_definition "A" f VNone
                 (instantiators.from_optional instantiators.from_int)
                 {| md_nargs := None; md_metavar := Some (MetavarStr "INT");
                    md_choices := None; md_is_optional := true |}
                 "Steps, in %% of the total. (default: None)").
  assert (H : make_from_field (fun _ _ => Some "Steps, in % of the total.")
                instantiators.instantiator_from_type "A" f ∅ VNone = Ok arg)
    by (vm_compute; reflexivity).
  exists arg. split; [exact H|].
  exact (proj2 (proj2 (help_text_of_pipeline_definitions _ _ _ _ _ _ _ H))
           eq_refl eq_refl eq_refl eq_refl).
Defined.

(** ** Flags of different fields *)

Lemma hyphenate_inj (s t : string) :
  Py.contains "-" s = false -> Py.contains "-" t = false ->
  Py.replace "_" "-" s = Py.replace "_" "-" t -> s = t.
Proof.
  intros Hs Ht E.
  rewrite <- (unhyphenate_hyphenate s Hs), <- (unhyphenate_hyphenate t Ht).
  by rewrite E.
Qed.

(** X11. Hyphenation does not confuse flags: two definitions whose prefixed
    names have no hyphen get the same flag exactly when their prefixed names
    are the same. *)
Theorem flags_tell_names_apart (a b : ArgumentDefinition) :
  Py.contains "-" (prefix a +:+ name a) = false ->
  Py.contains "-" (prefix b +:+ name b) = false ->
  (get_flag a = get_flag b <-> prefix a +:+ name a = prefix b +:+ name b).
Proof.
  intros Ha Hb. unfold get_flag. split; [|by intros ->].
  rewrite !append_cons, !append_empty. intros [= E]. by apply hyphenate_inj.
Qed.

Lemma flags_tell_names_apart_witness :
  let f n := {| dataclasses.name := n; dataclasses.type := TInt; dataclasses.init := true |} in
  let arg n := resolved_definition "A" (f n) VNone instantiators.from_int
                 (instantiators.scalar_metadata "INT" None) EmptyString in
  get_flag (arg "a_b") = get_flag (set_prefix "a_" (arg "b")) <->
  prefix (arg "a_b") +:+ name (arg "a_b")
  = prefix (set_prefix "a_" (arg "b")) +:+ name (set_prefix "a_" (arg "b")).
Proof.
  cbv zeta.
  exact (flags_tell_names_apart
           (resolved_definition "A"
              {| dataclasses.name := "a_b"; dataclasses.type := TInt;
                 dataclasses.init := true |}
              VNone instantiators.from_int (instantiators.scalar_metadata "INT" None)
              EmptyString)
           (set_prefix "a_"
              (resolved_definition "A"
                 {| dataclasses.name := "b"; dataclasses.type := TInt;
                    dataclasses.init := true |}
                 VNone instantiators.from_int (instantiators.scalar_metadata "INT" None)
                 EmptyString))
           eq_refl eq_refl).
Defined.

(** X12. The negated flag of a [bool] field with default [True] is the flag
    of any field that is named ["no_"] followed by that field's name and is
    not itself negated: the two definitions cannot be told apart on the
    command line. *)
Theorem negated_flag_meets_no_field
    (docs : string -> string -> option string)
    (resolver : option PyType -> TypeVarMap -> Py.result (Instantiator * InstantiatorMetadata))
    cls (f g : dataclasses.Field) tv d a b :
  dataclasses.type f = TBool ->
  dataclasses.name g = "no_" +:+ dataclasses.name f ->
  dataclasses.type g <> TBool \/ d <> VBool true ->
  make_from_field docs resolver cls f tv (VBool true) = Ok a ->
  make_from_field docs resolver cls g tv d = Ok b ->
  get_flag a = get_flag b /\ dest a <> dest b.
Proof.
  intros Ht Hn Hg Ha Hb.
  apply make_from_field_inv in Ha as [Hi [[_ (b' & h & [= <-] & ->)] | [[Hc | Hc] _]]];
    try done.
  apply make_from_field_inv in Hb as [_ [[Htg (b' & h' & -> & ->)] | [_ Hb]]].
  - destruct b'; [by destruct Hg|]. unfold get_flag. simpl. by rewrite Hn.
  - destruct Hb as (inst & md & h' & d' & _ & _ & ->).
    unfold get_flag. simpl. by rewrite Hn.
Qed.

Lemma negated_flag_meets_no_field_witness :
  let f := {| dataclasses.name := "x"; dataclasses.type := TBool; dataclasses.init := true |} in
  let g := {| dataclasses.name := "no_x"; dataclasses.type := TBool;
              dataclasses.init := true |} in
  get_flag (flag_definition "A" f true EmptyString)
  = get_flag (flag_definition "A" g false EmptyString) /\
  dest (flag_definition "A" f true EmptyString)
  <> dest (flag_definition "A" g false EmptyString).
Proof.
  cbv zeta.
  pose (docs := fun _ _ : string => @None string).
  pose (f := {| dataclasses.name := "x"; dataclasses.type := TBool;
                dataclasses.init := true |}).
  pose (g := {| dataclasses.name := "no_x"; dataclasses.type := TBool;
                dataclasses.init := true |}).
  assert (Ha : make_from_field docs instantiators.instantiator_from_type "A" f ∅ (VBool true)
               = Ok (flag_definition "A" f true EmptyString))
    by exact (make_from_field_flag docs instantiators.instantiator_from_type "A" f ∅ true
                eq_refl eq_refl).
  assert (Hb : make_from_field docs instantiators.instantiator_from_type "A" g ∅ (VBool false)
               = Ok (flag_definition "A" g false EmptyString))
    by exact (make_from_field_flag docs instantiators.instantiator_from_type "A" g ∅ false
                eq_refl eq_refl).
  assert (Hd : dataclasses.type g <> TBool \/ VBool false <> VBool true)
    by (right; discriminate).
  exact (negated_flag_meets_no_field docs instantiators.instantiator_from_type "A" f g ∅
           (VBool false) (flag_definition "A" f true EmptyString)
           (flag_definition "A" g false EmptyString) eq_refl eq_refl Hd Ha Hb).
Defined.

(** ** Where the attributes come from *)

(** X13. A definition that [make_from_field] returns has the empty prefix,
    the field and class it was made from, a help text and an instantiator;
    it has a destination exactly when it is the negated flag of a [bool]
    field with default [True], and then the destination is the field's name
    and the definition's name is ["no_"] followed by it; otherwise the
    definition's name is the field's. *)
Theorem pipeline_definition_attributes
    (docs : string -> string -> option string)
    (resolver : option PyType -> TypeVarMap -> Py.result (Instantiator * InstantiatorMetadata))
    cls (f : dataclasses.Field) tv d arg :
  make_from_field docs resolver cls f tv d = Ok arg ->
  prefix arg = EmptyString /\ field arg = f /\ parent_class arg = cls /\
  help arg <> None /\ instantiator arg <> None /\
  ((dataclasses.type f = TBool /\ d = VBool true /\
    action arg = Some "store_false" /\
    dest arg = Some (dataclasses.name f) /\
    name arg = "no_" +:+ dataclasses.name f) \/
   ((dataclasses.type f <> TBool \/ d <> VBool true) /\
    action arg <> Some "store_false" /\
    dest arg = None /\ name arg = dataclasses.name f)).
Proof.
  intros H. apply make_from_field_inv in H as [_ [[Ht (b & h & -> & ->)] | [Hg H]]].
  - simpl. repeat split; try done. destruct b; [left|right]; repeat split; try done.
    by right.
  - destruct H as (inst & md & h & d' & _ & _ & ->). simpl.
    repeat split; try done. right. repeat split; try done.
    destruct Hg as [Hg | ->]; [by left | by right].
Qed.

Lemma pipeline_definition_attributes_witness :
  let f := {| dataclasses.name := "x"; dataclasses.type := TBool; dataclasses.init := true |} in
  let arg := flag_definition "A" f true EmptyString in
  make_from_field (fun _ _ => None) instantiators.instantiator_from_type "A" f ∅ (VBool true)
  = Ok arg /\
  dest arg = Some "x" /\ name arg = "no_x".
Proof.
  cbv zeta.
  pose proof (make_from_field_flag (fun _ _ => None) instantiators.instantiator_from_type "A"
                {| dataclasses.name := "x"; dataclasses.type := TBool;
                   dataclasses.init := true |} ∅ true eq_refl eq_refl) as H.
  split; [exact H|].
  destruct (pipeline_definition_attributes _ _ _ _ _ _ _ H)
    as (_ & _ & _ & _ & _ & [(_ & _ & _ & Hd & Hn) | (_ & Ha & _)]).
  - split; [exact Hd | exact Hn].
  - by destruct Ha.
Defined.

(** ** What is handed over unchanged *)

(** X14. Apart from the destination, the type and the choices,
    [add_argument] hands the attributes of a definition over as they are:
    the default when it is not [None], [required], and the action, arity,
    value hint and help text when the definition has them; an attribute that
    is [None] is not handed over at all. *)
Theorem kwargs_pass_attributes_through (self : ArgumentDefinition) flag kwargs :
  add_argument self = Ok (flag, kwargs) ->
  kwargs !! "default"
    = (if is_None (default self) then None else Some (AVal (default self))) /\
  kwargs !! "required" = Some (AVal (VBool (required self))) /\
  kwargs !! "action" = (fun a => AVal (VStr a)) <$> action self /\
  kwargs !! "nargs" = (fun n => AVal (nargs_val n)) <$> nargs self /\
  kwargs !! "metavar" = (fun m => AVal (metavar_val m)) <$> metavar self /\
  kwargs !! "help" = (fun h => AVal (VStr h)) <$> help self /\
  (dest self = None -> kwargs !! "dest" = None) /\
  (type self = None -> kwargs !! "type" = None) /\
  (choices self = None -> kwargs !! "choices" = None).
Proof.
  intros H. apply add_argument_kwargs in H
    as (_ & Hd & Ht & Hc & Hdf & Hr & Ha & Hn & Hm & Hh & _).
  repeat split; try done.
  - intros E. by rewrite Hd, E.
  - intros E. by rewrite Ht, E.
  - intros E. by rewrite Hc, E.
Qed.

Lemma kwargs_pass_attributes_through_witness :
  let f := {| dataclasses.name := "x"; dataclasses.type := TSeq false TInt;
              dataclasses.init := true |} in
  let self := set_default (VTuple [VStr "1"; VStr "2"])
                (resolved_definition "A" f (VList [VInt 1; VInt 2])
                   (instantiators.from_seq false instantiators.from_int)
                   {| md_nargs := Some (NargsStr "+"); md_metavar := Some (MetavarStr "INT");
                      md_choices := None; md_is_optional := false |}
                   "(default: 1 2)") in
  exists kwargs,
    add_argument self = Ok ("--x", kwargs) /\
    kwargs !! "default" = Some (AVal (VTuple [VStr "1"; VStr "2"])) /\
    kwargs !! "nargs" = Some (AVal (VStr "+")) /\
    kwargs !! "choices" = None.
Proof.
  cbv zeta.
  pose (self := set_default (VTuple [VStr "1"; VStr "2"])
                  (resolved_definition "A"
                     {| dataclasses.name := "x"; dataclasses.type := TSeq false TInt;
                        dataclasses.init := true |} (VList [VInt 1; VInt 2])
                     (instantiators.from_seq false instantiators.from_int)
                     {| md_nargs := Some (NargsStr "+");
                        md_metavar := Some (MetavarStr "INT");
                        md_choices := None; md_is_optional := false |}
                     "(default: 1 2)")).
  assert (H : add_argument self
              = Ok ("--x",
                    {[ "type" := AType TStr;
                       "default" := AVal (VTuple [VStr "1"; VStr "2"]);
                       "required" := AVal (VBool false);
                       "nargs" := AVal (VStr "+");
                       "metavar" := AVal (VStr "INT");
                       "help" := AVal (VStr "(default: 1 2)") ]}))
    by (vm_compute; reflexivity).
  eexists. split; [exact H|].
  destruct (kwargs_pass_attributes_through self _ _ H)
    as (Hd & _ & _ & Hn & _ & _ & _ & _ & Hc).
  split; [exact Hd|]. split; [exact Hn|]. exact (Hc eq_refl).
Defined.

(** ** The boolean protocol (C2) *)













(** ** The round trip of defaults (C1) *)













(** The same failure inside a primitive type, for a value of a subclass:
    the default [True] of an [int] field is rendered as ["True"], which
    [int] does not read. *)
Example bool_default_of_int_field :
  exists arg inst,
    make_from_field (fun _ _ => None) instantiators.instantiator_from_type "A"
      {| dataclasses.name := "x"; dataclasses.type := TInt; dataclasses.init := true |}
      ∅ (VBool true) = Ok arg /\
    default arg = VStr "True" /\
    instantiator arg = Some inst /\
    inst (default arg) = Raise (ConversionError "True").
Proof.
  exists (set_default (VStr "True")
            (resolved_definition "A"
               {| dataclasses.name := "x"; dataclasses.type := TInt;
                  dataclasses.init := true |}
               (VBool true) instantiators.from_int
               (instantiators.scalar_metadata "INT" None) "(default: True)")).
  exists instantiators.from_int.
  split; [vm_compute; reflexivity|]. by repeat split.
Qed.

(** The renderer does not undo the instantiator: [int] reads ["+5"] and
    ["05"] as [5], which is rendered as ["5"]. *)
Example rendering_is_no_left_inverse :
  instantiators.from_int (VStr "+5") = Ok (VInt 5) /\
  instantiators.from_int (VStr "05") = Ok (VInt 5) /\
  as_str (VInt 5) = "5".
Proof. by repeat split. Qed.


